(** * aws-resource-exporter: start-up path of [main.go]

    A shallow embedding of [main.go]: the configuration structs, the
    defaulting done by [loadExporterConfiguration], the construction of the
    collectors by [setupCollectors], the start-up sequence of [run] and the
    exit of [main].

    - A [*time.Duration] is an [option Duration]: [None] is the nil pointer,
      [Some d] a pointer to [d] ([durationPtr] allocates a fresh one).
    - A Go [(value, error)] return is a [result].
    - Code with effects (logging, reading the file, creating sessions,
      starting goroutines, registering HTTP handlers) runs in the monad [M],
      which records the effects as a list of [Event]s in program order and
      stops at a panic or at a process exit.
    - What the program calls but does not define (the [os], [ioutil], [yaml],
      [session], [kingpin], [prometheus] and [version] packages) is the
      record [Env]: every statement below holds for all of them. *)

From Stdlib Require Import ZArith List String Ascii Bool Lia.
Import ListNotations.

Local Open Scope string_scope.
Local Open Scope Z_scope.

(** ** Values of the Go runtime *)

(** [time.Duration] is an [int64] count of nanoseconds. *)
Definition Duration : Type := Z.
Definition Nanosecond : Duration := 1.
Definition Microsecond : Duration := 1000 * Nanosecond.
Definition Millisecond : Duration := 1000 * Microsecond.
Definition Second : Duration := 1000 * Millisecond.

(** An [error] value, by its message. *)
Definition error : Type := string.

Inductive result (A : Type) : Type :=
| Ok (a : A)
| Err (e : error).
Arguments Ok {A} a.
Arguments Err {A} e.

(** ** Configuration structs (main.go, lines 44-78) *)

Record BaseConfig : Type := {
  Enabled : bool;
  Interval : option Duration;
  CacheTTL : option Duration
}.

Record RDSConfig : Type := {
  RDS_Base : BaseConfig;
  RDS_Regions : list string
}.

Record VPCConfig : Type := {
  VPC_Base : BaseConfig;
  VPC_Timeout : option Duration;
  VPC_Regions : list string
}.

Record Route53Config : Type := {
  R53_Base : BaseConfig;
  R53_Timeout : option Duration;
  R53_Region : string
}.

Record EC2Config : Type := {
  EC2_Base : BaseConfig;
  EC2_Timeout : option Duration;
  EC2_Regions : list string
}.

Record Config : Type := {
  Config_RdsConfig : RDSConfig;
  Config_VpcConfig : VPCConfig;
  Config_Route53Config : Route53Config;
  Config_EC2Config : EC2Config
}.

(** The zero values, as [var config Config] gives them. *)
Definition zeroBaseConfig : BaseConfig :=
  {| Enabled := false; Interval := None; CacheTTL := None |}.

Definition zeroConfig : Config :=
  {| Config_RdsConfig := {| RDS_Base := zeroBaseConfig; RDS_Regions := [] |};
     Config_VpcConfig :=
       {| VPC_Base := zeroBaseConfig; VPC_Timeout := None; VPC_Regions := [] |};
     Config_Route53Config :=
       {| R53_Base := zeroBaseConfig; R53_Timeout := None; R53_Region := "" |};
     Config_EC2Config :=
       {| EC2_Base := zeroBaseConfig; EC2_Timeout := None; EC2_Regions := [] |} |}.

(** Assignments to one field, [config.X.F = p]. *)
Module Assign.

Definition base_CacheTTL (p : option Duration) (b : BaseConfig) : BaseConfig :=
  {| Enabled := Enabled b; Interval := Interval b; CacheTTL := p |}.

Definition base_Interval (p : option Duration) (b : BaseConfig) : BaseConfig :=
  {| Enabled := Enabled b; Interval := p; CacheTTL := CacheTTL b |}.

Definition rds_base (f : BaseConfig -> BaseConfig) (c : Config) : Config :=
  {| Config_RdsConfig :=
       {| RDS_Base := f (RDS_Base (Config_RdsConfig c));
          RDS_Regions := RDS_Regions (Config_RdsConfig c) |};
     Config_VpcConfig := Config_VpcConfig c;
     Config_Route53Config := Config_Route53Config c;
     Config_EC2Config := Config_EC2Config c |}.

Definition vpc_base (f : BaseConfig -> BaseConfig) (c : Config) : Config :=
  {| Config_RdsConfig := Config_RdsConfig c;
     Config_VpcConfig :=
       {| VPC_Base := f (VPC_Base (Config_VpcConfig c));
          VPC_Timeout := VPC_Timeout (Config_VpcConfig c);
          VPC_Regions := VPC_Regions (Config_VpcConfig c) |};
     Config_Route53Config := Config_Route53Config c;
     Config_EC2Config := Config_EC2Config c |}.

Definition route53_base (f : BaseConfig -> BaseConfig) (c : Config) : Config :=
  {| Config_RdsConfig := Config_RdsConfig c;
     Config_VpcConfig := Config_VpcConfig c;
     Config_Route53Config :=
       {| R53_Base := f (R53_Base (Config_Route53Config c));
          R53_Timeout := R53_Timeout (Config_Route53Config c);
          R53_Region := R53_Region (Config_Route53Config c) |};
     Config_EC2Config := Config_EC2Config c |}.

Definition ec2_base (f : BaseConfig -> BaseConfig) (c : Config) : Config :=
  {| Config_RdsConfig := Config_RdsConfig c;
     Config_VpcConfig := Config_VpcConfig c;
     Config_Route53Config := Config_Route53Config c;
     Config_EC2Config :=
       {| EC2_Base := f (EC2_Base (Config_EC2Config c));
          EC2_Timeout := EC2_Timeout (Config_EC2Config c);
          EC2_Regions := EC2_Regions (Config_EC2Config c) |} |}.

Definition vpc_Timeout (p : option Duration) (c : Config) : Config :=
  {| Config_RdsConfig := Config_RdsConfig c;
     Config_VpcConfig :=
       {| VPC_Base := VPC_Base (Config_VpcConfig c);
          VPC_Timeout := p;
          VPC_Regions := VPC_Regions (Config_VpcConfig c) |};
     Config_Route53Config := Config_Route53Config c;
     Config_EC2Config := Config_EC2Config c |}.

Definition route53_Timeout (p : option Duration) (c : Config) : Config :=
  {| Config_RdsConfig := Config_RdsConfig c;
     Config_VpcConfig := Config_VpcConfig c;
     Config_Route53Config :=
       {| R53_Base := R53_Base (Config_Route53Config c);
          R53_Timeout := p;
          R53_Region := R53_Region (Config_Route53Config c) |};
     Config_EC2Config := Config_EC2Config c |}.

Definition ec2_Timeout (p : option Duration) (c : Config) : Config :=
  {| Config_RdsConfig := Config_RdsConfig c;
     Config_VpcConfig := Config_VpcConfig c;
     Config_Route53Config := Config_Route53Config c;
     Config_EC2Config :=
       {| EC2_Base := EC2_Base (Config_EC2Config c);
          EC2_Timeout := p;
          EC2_Regions := EC2_Regions (Config_EC2Config c) |} |}.

End Assign.

(** [p == nil] *)
Definition isNil {A : Type} (p : option A) : bool :=
  match p with None => true | Some _ => false end.

(** main.go, lines 80-82 *)
Definition durationPtr (duration : Duration) : option Duration := Some duration.

(** The eleven [if ... == nil] statements of [loadExporterConfiguration]
    (main.go, lines 93-127), in the order of the source. *)
Definition defaulting (config : Config) : Config :=
  let config :=
    if isNil (CacheTTL (RDS_Base (Config_RdsConfig config)))
    then Assign.rds_base (Assign.base_CacheTTL (durationPtr (35 * Second))) config
    else config in
  let config :=
    if isNil (CacheTTL (VPC_Base (Config_VpcConfig config)))
    then Assign.vpc_base (Assign.base_CacheTTL (durationPtr (35 * Second))) config
    else config in
  let config :=
    if isNil (CacheTTL (R53_Base (Config_Route53Config config)))
    then Assign.route53_base (Assign.base_CacheTTL (durationPtr (35 * Second))) config
    else config in
  let config :=
    if isNil (CacheTTL (EC2_Base (Config_EC2Config config)))
    then Assign.ec2_base (Assign.base_CacheTTL (durationPtr (35 * Second))) config
    else config in
  let config :=
    if isNil (Interval (RDS_Base (Config_RdsConfig config)))
    then Assign.rds_base (Assign.base_Interval (durationPtr (15 * Second))) config
    else config in
  let config :=
    if isNil (Interval (VPC_Base (Config_VpcConfig config)))
    then Assign.vpc_base (Assign.base_Interval (durationPtr (15 * Second))) config
    else config in
  let config :=
    if isNil (Interval (R53_Base (Config_Route53Config config)))
    then Assign.route53_base (Assign.base_Interval (durationPtr (15 * Second))) config
    else config in
  let config :=
    if isNil (Interval (EC2_Base (Config_EC2Config config)))
    then Assign.ec2_base (Assign.base_Interval (durationPtr (15 * Second))) config
    else config in
  let config :=
    if isNil (VPC_Timeout (Config_VpcConfig config))
    then Assign.vpc_Timeout (durationPtr (10 * Second)) config
    else config in
  let config :=
    if isNil (R53_Timeout (Config_Route53Config config))
    then Assign.route53_Timeout (durationPtr (10 * Second)) config
    else config in
  let config :=
    if isNil (EC2_Timeout (Config_EC2Config config))
    then Assign.ec2_Timeout (durationPtr (10 * Second)) config
    else config in
  config.

(** main.go, lines 27-31 *)
Definition namespace : string := "aws_resources_exporter".
Definition DEFAULT_TIMEOUT : Duration := 30 * Second.
Definition CONFIG_FILE_PATH : string := "./aws-resource-exporter-config.yaml".

(** ** Resource kinds and collectors *)

Inductive Kind : Type := rds | vpc | route53 | ec2.

(** The enabled flag, the two shared durations, the timeout (a kind without
    one has [None] outside) and the configured regions of a kind. *)
Definition baseOf (k : Kind) (c : Config) : BaseConfig :=
  match k with
  | rds => RDS_Base (Config_RdsConfig c)
  | vpc => VPC_Base (Config_VpcConfig c)
  | route53 => R53_Base (Config_Route53Config c)
  | ec2 => EC2_Base (Config_EC2Config c)
  end.

Definition timeoutOf (k : Kind) (c : Config) : option (option Duration) :=
  match k with
  | rds => None
  | vpc => Some (VPC_Timeout (Config_VpcConfig c))
  | route53 => Some (R53_Timeout (Config_Route53Config c))
  | ec2 => Some (EC2_Timeout (Config_EC2Config c))
  end.

Definition regionsOf (k : Kind) (c : Config) : list string :=
  match k with
  | rds => RDS_Regions (Config_RdsConfig c)
  | vpc => VPC_Regions (Config_VpcConfig c)
  | route53 => [R53_Region (Config_Route53Config c)]
  | ec2 => EC2_Regions (Config_EC2Config c)
  end.

(** An AWS session, as [session.NewSession] returns it for a region. *)
Record Session : Type := { Session_Region : string }.

(** Modelled from the spec: the exporters ([NewVPCExporter], [NewRDSExporter],
    [NewEC2Exporter], [NewRoute53Exporter], [NewExporterMetrics] and their
    [CollectLoop] methods) are defined in files of the repository other than
    main.go.  The spec (4.2, 4.5) has one collector per resource kind, built
    from the kind's client set and configuration; a collector is modelled as
    the record of what it was built from. *)
Inductive Collector : Type :=
| VPCExporter (sessions : list Session) (config : VPCConfig)
| RDSExporter (sessions : list Session) (config : RDSConfig)
| EC2Exporter (sessions : list Session) (config : EC2Config)
| Route53Exporter (sess : Session) (config : Route53Config)
| ExporterMetrics.

Definition kindOf (c : Collector) : option Kind :=
  match c with
  | VPCExporter _ _ => Some vpc
  | RDSExporter _ _ => Some rds
  | EC2Exporter _ _ => Some ec2
  | Route53Exporter _ _ => Some route53
  | ExporterMetrics => None
  end.

Definition Kind_eqb (a b : Kind) : bool :=
  match a, b with
  | rds, rds | vpc, vpc | route53, route53 | ec2, ec2 => true
  | _, _ => false
  end.

Definition is_of_kind (k : Kind) (c : Collector) : bool :=
  match kindOf c with
  | Some k' => Kind_eqb k k'
  | None => false
  end.

(** ** Effects *)

Inductive Level : Type := LevelInfo | LevelError.

Inductive Event : Type :=
| EvLog (lvl : Level) (keyvals : list string)
| EvReadFile (filename : string)
| EvNewSession (region : string)
| EvNewExporter (c : Collector)
| EvGoCollectLoop (c : Collector)
| EvMustRegister (cs : list Collector)
| EvHandle (pattern : string)
| EvHandleFunc (pattern : string)
| EvSignalNotify
| EvGoListenAndServe (addr : string).

(** How a call ends: it returns, it panics (nothing in main.go recovers, so
    the process dies), the process exits inside it, or it never returns. *)
Inductive Outcome (A : Type) : Type :=
| Returned (a : A)
| Panicked (v : error)
| Exited (code : Z)
| Blocked.
Arguments Returned {A} a.
Arguments Panicked {A} v.
Arguments Exited {A} code.
Arguments Blocked {A}.

Definition M (A : Type) : Type := (list Event * Outcome A)%type.

Definition ret {A : Type} (a : A) : M A := ([], Returned a).

Definition bind {A B : Type} (m : M A) (k : A -> M B) : M B :=
  match m with
  | (t, Returned a) => let (t', o) := k a in ((t ++ t')%list, o)
  | (t, Panicked v) => (t, Panicked v)
  | (t, Exited code) => (t, Exited code)
  | (t, Blocked) => (t, Blocked)
  end.

Definition emit (e : Event) : M unit := ([e], Returned tt).
Definition panic {A : Type} (v : error) : M A := ([], Panicked v).
Definition exit {A : Type} (code : Z) : M A := ([], Exited code).
Definition block {A : Type} : M A := ([], Blocked).

Definition trace {A : Type} (m : M A) : list Event := fst m.
Definition outcome {A : Type} (m : M A) : Outcome A := snd m.

Declare Scope go_scope.
Delimit Scope go_scope with go.
Notation "x <- c1 ;; c2" := (bind c1 (fun x => c2))
  (at level 61, c1 at next level, right associativity) : go_scope.
Notation "c1 ;; c2" := (bind c1 (fun _ => c2))
  (at level 61, right associativity) : go_scope.
Local Open Scope go_scope.

(** ** The packages main.go imports *)

(** An error of [yaml.Unmarshal]: the document does not parse, or it parses
    and some of its values do not fit the fields they are decoded into. *)
Inductive YamlError : Type :=
| SyntaxError (msg : string)
| TypeError (errors : list string).

(** The two flags [kingpin.Parse] fills in (main.go, lines 34-35). *)
Record Flags : Type := {
  listenAddress : string;
  metricsPath : string
}.

(** Which case of the final [select] of [run] becomes ready. *)
Inductive Selected : Type := term_received | srvc_closed | none_ready.

Record Env : Type := {
  (* [os.Getenv]: the empty string for a variable that is not set *)
  os_Getenv : string -> string;
  ioutil_ReadFile : string -> result (list Byte.byte);
  (* [yaml.Unmarshal(in, &out)]: the value of [out] after the call, and the
      error returned *)
  yaml_Unmarshal : list Byte.byte -> Config -> Config * option YamlError;
  (* [session.NewSession(aws.NewConfig().WithRegion(region))] *)
  session_NewSession : string -> result Session;
  (* [kingpin.Parse]: the parsed flags, or the status the process exits
      with on a usage error or on [--help] *)
  kingpin_Parse : Z + Flags;
  (* [prometheus.MustRegister]: the value it panics with, if it does *)
  prometheus_MustRegister : list Collector -> option error;
  version_Info : string;
  version_BuildContext : string;
  select_ready : Selected
}.

(** ** The program *)

Section Program.

Variable env : Env.

(** [level.Info(logger).Log(...)], [level.Error(logger).Log(...)] *)
Definition level_Log (lvl : Level) (keyvals : list string) : M unit :=
  emit (EvLog lvl keyvals).

Definition strconv_FormatBool (b : bool) : string :=
  if b then "true" else "false".

(** [strings.Join] *)
Definition strings_Join (elems : list string) (sep : string) : string :=
  String.concat sep elems.

Definition ReadFile (filename : string) : M (result (list Byte.byte)) :=
  emit (EvReadFile filename) ;;
  ret (ioutil_ReadFile env filename).

(** main.go, lines 84-129 *)
Definition loadExporterConfiguration (configFile : string) : M (result Config) :=
  let config := zeroConfig in
  r <- ReadFile configFile ;;
  match r with
  | Err _ =>
      level_Log LevelError ["Could not load configuration file"] ;;
      ret (Err ("Could not load configuration file: " ++ configFile))
  | Ok file =>
      (* the error of yaml.Unmarshal is dropped *)
      let (config, _) := yaml_Unmarshal env file config in
      ret (Ok (defaulting config))
  end.

Definition NewSession (region : string) : M (result Session) :=
  emit (EvNewSession region) ;;
  ret (session_NewSession env region).

(** [session.Must]: panics with the error, if there is one *)
Definition session_Must (r : result Session) : M Session :=
  match r with
  | Ok sess => ret sess
  | Err err => panic err
  end.

(** The loops [for _, region := range regions { ... append(sessions, sess) }]
    of [setupCollectors]. *)
Fixpoint newSessions (regions : list string) (sessions : list Session)
  : M (list Session) :=
  match regions with
  | [] => ret sessions
  | region :: regions' =>
      r <- NewSession region ;;
      sess <- session_Must r ;;
      newSessions regions' (sessions ++ [sess])%list
  end.

Definition NewVPCExporter (sessions : list Session) (config : VPCConfig)
  : M Collector :=
  emit (EvNewExporter (VPCExporter sessions config)) ;;
  ret (VPCExporter sessions config).

Definition NewRDSExporter (sessions : list Session) (config : RDSConfig)
  : M Collector :=
  emit (EvNewExporter (RDSExporter sessions config)) ;;
  ret (RDSExporter sessions config).

Definition NewEC2Exporter (sessions : list Session) (config : EC2Config)
  : M Collector :=
  emit (EvNewExporter (EC2Exporter sessions config)) ;;
  ret (EC2Exporter sessions config).

Definition NewRoute53Exporter (sess : Session) (config : Route53Config)
  : M Collector :=
  emit (EvNewExporter (Route53Exporter sess config)) ;;
  ret (Route53Exporter sess config).

(** [go exporter.CollectLoop()] *)
Definition go_CollectLoop (exporter : Collector) : M unit :=
  emit (EvGoCollectLoop exporter).

(** main.go, lines 141-152 *)
Definition setupVPC (config : Config) (collectors : list Collector)
  : M (list Collector) :=
  level_Log LevelInfo
    ["msg"; "Will VPC metrics be gathered?"; "vpc-enabled";
     strconv_FormatBool (Enabled (VPC_Base (Config_VpcConfig config)))] ;;
  if Enabled (VPC_Base (Config_VpcConfig config)) then
    vpcSessions <- newSessions (VPC_Regions (Config_VpcConfig config)) [] ;;
    vpcExporter <- NewVPCExporter vpcSessions (Config_VpcConfig config) ;;
    let collectors := (collectors ++ [vpcExporter])%list in
    go_CollectLoop vpcExporter ;;
    ret collectors
  else ret collectors.

(** main.go, lines 153-164 *)
Definition setupRDS (config : Config) (collectors : list Collector)
  : M (list Collector) :=
  level_Log LevelInfo
    ["msg"; "Will RDS metrics be gathered?"; "rds-enabled";
     strconv_FormatBool (Enabled (RDS_Base (Config_RdsConfig config)))] ;;
  if Enabled (RDS_Base (Config_RdsConfig config)) then
    rdsSessions <- newSessions (RDS_Regions (Config_RdsConfig config)) [] ;;
    rdsExporter <- NewRDSExporter rdsSessions (Config_RdsConfig config) ;;
    let collectors := (collectors ++ [rdsExporter])%list in
    go_CollectLoop rdsExporter ;;
    ret collectors
  else ret collectors.

(** main.go, lines 165-176 *)
Definition setupEC2 (config : Config) (collectors : list Collector)
  : M (list Collector) :=
  level_Log LevelInfo
    ["msg"; "Will EC2 metrics be gathered?"; "ec2-enabled";
     strconv_FormatBool (Enabled (EC2_Base (Config_EC2Config config)))] ;;
  if Enabled (EC2_Base (Config_EC2Config config)) then
    ec2Sessions <- newSessions (EC2_Regions (Config_EC2Config config)) [] ;;
    ec2Exporter <- NewEC2Exporter ec2Sessions (Config_EC2Config config) ;;
    let collectors := (collectors ++ [ec2Exporter])%list in
    go_CollectLoop ec2Exporter ;;
    ret collectors
  else ret collectors.

(** main.go, lines 177-184 *)
Definition setupRoute53 (config : Config) (collectors : list Collector)
  : M (list Collector) :=
  level_Log LevelInfo
    ["msg"; "Will Route53 metrics be gathered?"; "route53-enabled";
     strconv_FormatBool (Enabled (R53_Base (Config_Route53Config config)))] ;;
  if Enabled (R53_Base (Config_Route53Config config)) then
    r <- NewSession (R53_Region (Config_Route53Config config)) ;;
    sess <- session_Must r ;;
    r53Exporter <- NewRoute53Exporter sess (Config_Route53Config config) ;;
    let collectors := (collectors ++ [r53Exporter])%list in
    go_CollectLoop r53Exporter ;;
    ret collectors
  else ret collectors.

(** main.go, lines 131-187: the four blocks above, in the order of the
    source (vpc, rds, ec2, route53). *)
Definition setupCollectors (configFile : string) : M (result (list Collector)) :=
  let collectors : list Collector := [] in
  r <- loadExporterConfiguration configFile ;;
  match r with
  | Err err => ret (Err err)
  | Ok config =>
      level_Log LevelInfo
        ["msg"; "Configuring vpc with regions"; "regions";
         strings_Join (VPC_Regions (Config_VpcConfig config)) ","] ;;
      level_Log LevelInfo
        ["msg"; "Configuring rds with regions"; "regions";
         strings_Join (RDS_Regions (Config_RdsConfig config)) ","] ;;
      level_Log LevelInfo
        ["msg"; "Configuring ec2 with regions"; "regions";
         strings_Join (EC2_Regions (Config_EC2Config config)) ","] ;;
      level_Log LevelInfo
        ["msg"; "Configuring route53 with region"; "region";
         R53_Region (Config_Route53Config config)] ;;
      collectors <- setupVPC config collectors ;;
      collectors <- setupRDS config collectors ;;
      collectors <- setupEC2 config collectors ;;
      collectors <- setupRoute53 config collectors ;;
      ret (Ok collectors)
  end.

(** main.go, lines 201-206 *)
Definition configFile : string :=
  let path := os_Getenv env "AWS_RESOURCE_EXPORTER_CONFIG_FILE" in
  if negb (path =? "")%string then path else CONFIG_FILE_PATH.

Definition Parse : M Flags :=
  match kingpin_Parse env with
  | inl code => exit code
  | inr flags => ret flags
  end.

Definition MustRegister (cs : list Collector) : M unit :=
  emit (EvMustRegister cs) ;;
  match prometheus_MustRegister env cs with
  | Some v => panic v
  | None => ret tt
  end.

(** main.go, lines 189-250.  The goroutine of lines 233-239 is the event
    [EvGoListenAndServe]; its closing of [srvc] and the arrival of a signal
    on [term] are what [select_ready] stands for. *)
Definition run : M Z :=
  flags <- Parse ;;
  level_Log LevelInfo
    ["msg"; "Starting" ++ namespace; "version"; version_Info env] ;;
  level_Log LevelInfo ["msg"; "Build context"; version_BuildContext env] ;;
  let exporterMetrics := ExporterMetrics in
  let configFile := configFile in
  r <- setupCollectors configFile ;;
  match r with
  | Err err =>
      level_Log LevelError
        ["msg"; "Could not load configuration file"; "err"; err] ;;
      ret 1
  | Ok cs =>
      let collectors := (cs ++ [exporterMetrics])%list in
      MustRegister collectors ;;
      emit (EvHandle (metricsPath flags)) ;;
      emit (EvHandleFunc "/") ;;
      emit EvSignalNotify ;;
      emit (EvGoListenAndServe (listenAddress flags)) ;;
      match select_ready env with
      | term_received =>
          level_Log LevelInfo ["msg"; "Received SIGTERM, exiting gracefully..."] ;;
          ret 0
      | srvc_closed => ret 1
      | none_ready => block
      end
  end.

End Program.

(** ** Where the default path leads

    [ioutil.ReadFile] hands the file name to the operating system, which
    looks a relative name up from the working directory of the process.
    [Process] has what decides which file that is. *)

Record Process : Type := {
  proc_environ : string -> string;
  proc_cwd : string;
  proc_executable_dir : string;
  (* the files that exist, by absolute path *)
  proc_files : string -> option (list Byte.byte)
}.

(** The absolute path a file name stands for in a working directory; a
    leading [./] names that directory itself. *)
Definition resolve (cwd filename : string) : string :=
  if String.prefix "/" filename then filename
  else if String.prefix "./" filename
       then cwd ++ "/" ++ String.substring 2 (String.length filename - 2) filename
       else cwd ++ "/" ++ filename.

Definition Process_ReadFile (p : Process) (filename : string)
  : result (list Byte.byte) :=
  match proc_files p (resolve (proc_cwd p) filename) with
  | Some contents => Ok contents
  | None => Err ("open " ++ filename ++ ": no such file or directory")
  end.

(** The environment of [run] in process [p]; [lib] gives the packages that
    do not depend on the process. *)
Definition Process_env (p : Process) (lib : Env) : Env :=
  {| os_Getenv := proc_environ p;
     ioutil_ReadFile := Process_ReadFile p;
     yaml_Unmarshal := yaml_Unmarshal lib;
     session_NewSession := session_NewSession lib;
     kingpin_Parse := kingpin_Parse lib;
     prometheus_MustRegister := prometheus_MustRegister lib;
     version_Info := version_Info lib;
     version_BuildContext := version_BuildContext lib;
     select_ready := select_ready lib |}.

(** The spec's words for the default: the configuration file located next
    to the executable. *)
Definition spec_next_to_executable (p : Process) : string :=
  proc_executable_dir p ++ "/aws-resource-exporter-config.yaml".

(** ** Properties of runs *)

(** Every event of [m] satisfies [T], and [Q] holds of what [m] returns. *)
Definition sat {A : Type} (m : M A) (T : Event -> Prop) (Q : A -> Prop) : Prop :=
  Forall T (trace m) /\ forall a, outcome m = Returned a -> Q a.

Definition panics {A : Type} (m : M A) : Prop :=
  exists v, outcome m = Panicked v.

(** [m] returns or panics: it neither exits the process nor blocks. *)
Definition completes {A : Type} (m : M A) : Prop :=
  (exists a, outcome m = Returned a) \/ panics m.

Definition returns_error {A : Type} (m : M (result A)) : Prop :=
  exists e, outcome m = Returned (Err e).

(** The event builds the collector of kind [k], or starts its refresh loop. *)
Definition concerns (k : Kind) (e : Event) : bool :=
  match e with
  | EvNewExporter c => is_of_kind k c
  | EvGoCollectLoop c => is_of_kind k c
  | _ => false
  end.

Definition starts_loop (e : Event) : bool :=
  match e with
  | EvGoCollectLoop _ => true
  | _ => false
  end.

(** The event registers an HTTP handler or starts the listener. *)
Definition serving (e : Event) : bool :=
  match e with
  | EvHandle _ | EvHandleFunc _ | EvGoListenAndServe _ => true
  | _ => false
  end.

(** The collector is that of a kind enabled in [config]. *)
Definition of_enabled_kind (config : Config) (c : Collector) : Prop :=
  exists k, kindOf c = Some k /\ Enabled (baseOf k config) = true.

(** The events [setupCollectors] can have with [config]: log lines, the read
    of the file, sessions, and the construction and the refresh loop of
    collectors of enabled kinds. *)
Definition setup_event (config : Config) (e : Event) : Prop :=
  match e with
  | EvLog _ _ | EvReadFile _ | EvNewSession _ => True
  | EvNewExporter c | EvGoCollectLoop c => of_enabled_kind config c
  | _ => False
  end.

(** The value a duration field has after defaulting to [d]. *)
Definition orDefault (d : Duration) (p : option Duration) : Duration :=
  match p with
  | Some x => x
  | None => d
  end.

(** The spec's words for a file that "is not valid structured data": the
    parser rejects the document. *)
Definition spec_not_structured_data (env : Env) (file : list Byte.byte) : Prop :=
  exists msg config,
    yaml_Unmarshal env file zeroConfig = (config, Some (SyntaxError msg)).

Definition cannot_be_read (env : Env) (configFile : string) : Prop :=
  exists e, ioutil_ReadFile env configFile = Err e.

(** ** Concrete runs *)

Module Scenario.

Definition sample_yaml : string :=
"rds:
  enabled: true
  cache_ttl: 60s
  regions:
    - us-east-1
vpc:
  enabled: false
  timeout: 5s
  regions:
    - us-east-1
    - us-west-2
ec2:
  enabled: true
  interval: 30s
  regions:
    - eu-west-1
".

(** What [sample_yaml] decodes to: the fields it does not mention keep
    their zero value. *)
Definition sample_parsed : Config :=
  {| Config_RdsConfig :=
       {| RDS_Base := {| Enabled := true; Interval := None;
                         CacheTTL := Some (60 * Second) |};
          RDS_Regions := ["us-east-1"] |};
     Config_VpcConfig :=
       {| VPC_Base := zeroBaseConfig;
          VPC_Timeout := Some (5 * Second);
          VPC_Regions := ["us-east-1"; "us-west-2"] |};
     Config_Route53Config :=
       {| R53_Base := zeroBaseConfig; R53_Timeout := None; R53_Region := "" |};
     Config_EC2Config :=
       {| EC2_Base := {| Enabled := true; Interval := Some (30 * Second);
                         CacheTTL := None |};
          EC2_Timeout := None;
          EC2_Regions := ["eu-west-1"] |} |}.

(** A document the YAML parser rejects: the flow sequence is not closed. *)
Definition broken_yaml : string := "rds: [".

(** [yaml.Unmarshal] on the two documents above; a document is parsed as a
    whole before any field is decoded, so a syntax error leaves [out] as it
    was. *)
Definition Unmarshal (file : list Byte.byte) (out : Config)
  : Config * option YamlError :=
  if (string_of_list_byte file =? sample_yaml)%string then (sample_parsed, None)
  else if (string_of_list_byte file =? broken_yaml)%string
       then (out, Some (SyntaxError "yaml: did not find expected node content"))
       else (out, None).

Definition default_flags : Flags :=
  {| listenAddress := ":9115"; metricsPath := "/metrics" |}.

(** The packages, in a process where sessions can be created and a SIGTERM
    arrives in the end. *)
Definition lib : Env :=
  {| os_Getenv := fun _ => "";
     ioutil_ReadFile := fun filename => Err ("open " ++ filename);
     yaml_Unmarshal := Unmarshal;
     session_NewSession := fun region => Ok {| Session_Region := region |};
     kingpin_Parse := inr default_flags;
     prometheus_MustRegister := fun _ => None;
     version_Info := "(version=, branch=, revision=)";
     version_BuildContext := "(go=, user=, date=)";
     select_ready := term_received |}.

(** The same, where no session can be created (the CA bundle named by
    [AWS_CA_BUNDLE] cannot be read, say). *)
Definition lib_no_session : Env :=
  {| os_Getenv := os_Getenv lib;
     ioutil_ReadFile := ioutil_ReadFile lib;
     yaml_Unmarshal := yaml_Unmarshal lib;
     session_NewSession :=
       fun _ => Err "LoadCustomCABundleError: unable to load custom CA bundle file";
     kingpin_Parse := kingpin_Parse lib;
     prometheus_MustRegister := prometheus_MustRegister lib;
     version_Info := version_Info lib;
     version_BuildContext := version_BuildContext lib;
     select_ready := select_ready lib |}.

(** A process started in [/srv/exporter] whose only file is [contents],
    at [/srv/exporter/aws-resource-exporter-config.yaml]. *)
Definition in_srv (contents : string) : Process :=
  {| proc_environ := fun _ => "";
     proc_cwd := "/srv/exporter";
     proc_executable_dir := "/srv/exporter";
     proc_files := fun path =>
       if (path =? "/srv/exporter/aws-resource-exporter-config.yaml")%string
       then Some (list_byte_of_string contents)
       else None |}.

Definition sample_env : Env := Process_env (in_srv sample_yaml) lib.
Definition broken_env : Env := Process_env (in_srv broken_yaml) lib.
Definition no_session_env : Env := Process_env (in_srv sample_yaml) lib_no_session.

(** No configuration file anywhere. *)
Definition no_file : Process :=
  {| proc_environ := fun _ => "";
     proc_cwd := "/srv/exporter";
     proc_executable_dir := "/srv/exporter";
     proc_files := fun _ => None |}.

Definition no_file_env : Env := Process_env no_file lib.

(** The executable is installed in [/usr/local/bin] with the sample
    configuration file next to it; the process is started from [/srv]. *)
Definition started_elsewhere : Process :=
  {| proc_environ := fun _ => "";
     proc_cwd := "/srv";
     proc_executable_dir := "/usr/local/bin";
     proc_files := fun path =>
       if (path =? "/usr/local/bin/aws-resource-exporter-config.yaml")%string
       then Some (list_byte_of_string sample_yaml)
       else None |}.

Definition started_elsewhere_env : Env := Process_env started_elsewhere lib.

End Scenario.

(** ** The entry point *)

(** [os.Exit] *)
Definition os_Exit {A : Type} (code : Z) : M A := exit code.

(** main.go, lines 40-42 *)
Definition main (env : Env) : M unit :=
  (code <- run env ;; os_Exit code)%go.

(** ** Further properties of runs *)

Definition returns {A : Type} (m : M A) : Prop :=
  exists a, outcome m = Returned a.

(** The order in which [setupCollectors] goes through the kinds. *)
Definition kinds_in_order : list Kind := [vpc; rds; ec2; route53].

(** The kinds [setupCollectors] has gone through when it is done with [k]. *)
Definition kinds_up_to (k : Kind) : list Kind :=
  match k with
  | vpc => [vpc]
  | rds => [vpc; rds]
  | ec2 => [vpc; rds; ec2]
  | route53 => [vpc; rds; ec2; route53]
  end.

(** Every region of the list has a session. *)
Definition sessions_available (env : Env) (regions : list string) : Prop :=
  forall region, In region regions ->
                 exists sess, session_NewSession env region = Ok sess.

(** The collector holds the configuration its kind has in [config] and the
    sessions of the regions configured for the kind, in their order. *)
Definition built_from (env : Env) (config : Config) (c : Collector) : Prop :=
  match c with
  | VPCExporter sessions cfg =>
      cfg = Config_VpcConfig config /\
      map (session_NewSession env) (VPC_Regions cfg) = map Ok sessions
  | RDSExporter sessions cfg =>
      cfg = Config_RdsConfig config /\
      map (session_NewSession env) (RDS_Regions cfg) = map Ok sessions
  | EC2Exporter sessions cfg =>
      cfg = Config_EC2Config config /\
      map (session_NewSession env) (EC2_Regions cfg) = map Ok sessions
  | Route53Exporter sess cfg =>
      cfg = Config_Route53Config config /\
      session_NewSession env (R53_Region cfg) = Ok sess
  | ExporterMetrics => False
  end.

(** What a block of [setupCollectors] appends for kind [k]: nothing when the
    kind is disabled, one collector of the kind when it is enabled. *)
Definition appended (env : Env) (config : Config) (k : Kind)
           (new : list Collector) : Prop :=
  (Enabled (baseOf k config) = false /\ new = []) \/
  (Enabled (baseOf k config) = true /\
   exists c, new = [c] /\ kindOf c = Some k /\ built_from env config c).

(** The events [setupCollectors] can have when it is called with
    [configFile] and loads [config]: as [setup_event], and the file read is
    [configFile], and a session is one of a region of an enabled kind. *)
Definition setup_event_strict (configFile : string) (config : Config)
           (e : Event) : Prop :=
  match e with
  | EvLog _ _ => True
  | EvReadFile filename => filename = configFile
  | EvNewSession region =>
      exists k, Enabled (baseOf k config) = true /\ In region (regionsOf k config)
  | EvNewExporter c | EvGoCollectLoop c => of_enabled_kind config c
  | _ => False
  end.

Definition is_register (e : Event) : bool :=
  match e with
  | EvMustRegister _ => true
  | _ => false
  end.

Definition is_read (e : Event) : bool :=
  match e with
  | EvReadFile _ => true
  | _ => false
  end.

(** No duration pointer of the configuration is nil. *)
Definition fully_set (c : Config) : bool :=
  negb (isNil (CacheTTL (RDS_Base (Config_RdsConfig c)))) &&
  negb (isNil (CacheTTL (VPC_Base (Config_VpcConfig c)))) &&
  negb (isNil (CacheTTL (R53_Base (Config_Route53Config c)))) &&
  negb (isNil (CacheTTL (EC2_Base (Config_EC2Config c)))) &&
  negb (isNil (Interval (RDS_Base (Config_RdsConfig c)))) &&
  negb (isNil (Interval (VPC_Base (Config_VpcConfig c)))) &&
  negb (isNil (Interval (R53_Base (Config_Route53Config c)))) &&
  negb (isNil (Interval (EC2_Base (Config_EC2Config c)))) &&
  negb (isNil (VPC_Timeout (Config_VpcConfig c))) &&
  negb (isNil (R53_Timeout (Config_Route53Config c))) &&
  negb (isNil (EC2_Timeout (Config_EC2Config c))).

(** The shape the four blocks of [setupCollectors] share, for the lemmas
    that hold of all four: the log line, and when the kind is enabled the
    sessions, the exporter built from them, its loop, and the append. *)
Definition setupBlock {A : Type} (keyvals : list string) (enabled : bool)
           (sessions : M A) (exporter : A -> Collector)
           (collectors : list Collector) : M (list Collector) :=
  (level_Log LevelInfo keyvals ;;
   if enabled then
     a <- sessions ;;
     c <- (emit (EvNewExporter (exporter a)) ;; ret (exporter a)) ;;
     go_CollectLoop c ;;
     ret (collectors ++ [c])%list
   else ret collectors)%go.

Module Scenario2.

(** All four kinds enabled, with nothing else set. *)
Definition all_enabled_yaml : string :=
"vpc:
  enabled: true
  regions:
    - us-east-1
rds:
  enabled: true
  regions:
    - us-east-1
    - eu-west-1
ec2:
  enabled: true
  regions:
    - eu-west-1
route53:
  enabled: true
  region: us-east-1
".

Definition enabled_base : BaseConfig :=
  {| Enabled := true; Interval := None; CacheTTL := None |}.

Definition all_enabled_parsed : Config :=
  {| Config_RdsConfig :=
       {| RDS_Base := enabled_base; RDS_Regions := ["us-east-1"; "eu-west-1"] |};
     Config_VpcConfig :=
       {| VPC_Base := enabled_base; VPC_Timeout := None;
          VPC_Regions := ["us-east-1"] |};
     Config_Route53Config :=
       {| R53_Base := enabled_base; R53_Timeout := None;
          R53_Region := "us-east-1" |};
     Config_EC2Config :=
       {| EC2_Base := enabled_base; EC2_Timeout := None;
          EC2_Regions := ["eu-west-1"] |} |}.

Definition Unmarshal (file : list Byte.byte) (out : Config)
  : Config * option YamlError :=
  if (string_of_list_byte file =? all_enabled_yaml)%string
  then (all_enabled_parsed, None)
  else Scenario.Unmarshal file out.

Definition process : Process := Scenario.in_srv all_enabled_yaml.

Definition lib_with (new_session : string -> result Session)
           (must_register : list Collector -> option error)
           (parse : Z + Flags) (ready : Selected) : Env :=
  {| os_Getenv := os_Getenv Scenario.lib;
     ioutil_ReadFile := ioutil_ReadFile Scenario.lib;
     yaml_Unmarshal := Unmarshal;
     session_NewSession := new_session;
     kingpin_Parse := parse;
     prometheus_MustRegister := must_register;
     version_Info := version_Info Scenario.lib;
     version_BuildContext := version_BuildContext Scenario.lib;
     select_ready := ready |}.

(** Everything works, and a SIGTERM arrives. *)
Definition all_enabled_env : Env :=
  Process_env process
    (lib_with (fun region => Ok {| Session_Region := region |})
              (fun _ => None) (inr Scenario.default_flags) term_received).

(** No session for [eu-west-1]. *)
Definition one_region_down_env : Env :=
  Process_env process
    (lib_with (fun region =>
                 if (region =? "eu-west-1")%string
                 then Err "no session for eu-west-1"
                 else Ok {| Session_Region := region |})
              (fun _ => None) (inr Scenario.default_flags) term_received).

(** The registry refuses the collectors. *)
Definition register_panics_env : Env :=
  Process_env process
    (lib_with (fun region => Ok {| Session_Region := region |})
              (fun _ => Some "duplicate metrics collector registration attempted")
              (inr Scenario.default_flags) term_received).


(** [--help] on the command line. *)
Definition help_env : Env :=
  Process_env process
    (lib_with (fun region => Ok {| Session_Region := region |})
              (fun _ => None) (inl 0) term_received).

(** The collectors [setupCollectors] returns when everything works. *)
Definition all_enabled_config : Config := defaulting all_enabled_parsed.

Definition all_enabled_collectors : list Collector :=
  [VPCExporter [{| Session_Region := "us-east-1" |}]
     (Config_VpcConfig all_enabled_config);
   RDSExporter [{| Session_Region := "us-east-1" |};
                {| Session_Region := "eu-west-1" |}]
     (Config_RdsConfig all_enabled_config);
   EC2Exporter [{| Session_Region := "eu-west-1" |}]
     (Config_EC2Config all_enabled_config);
   Route53Exporter {| Session_Region := "us-east-1" |}
     (Config_Route53Config all_enabled_config)].

End Scenario2.

(** * Theorems *)

(** ** The monad *)

Lemma trace_bind {A B : Type} (m : M A) (k : A -> M B) :
  trace (bind m k) =
  (trace m ++ match outcome m with
              | Returned a => trace (k a)
              | _ => []
              end)%list.
Proof.
  destruct m as [t [a | v | code | ]]; cbn.
  - destruct (k a); reflexivity.
  - now rewrite app_nil_r.
  - now rewrite app_nil_r.
  - now rewrite app_nil_r.
Qed.

Lemma outcome_bind {A B : Type} (m : M A) (k : A -> M B) :
  outcome (bind m k) =
  match outcome m with
  | Returned a => outcome (k a)
  | Panicked v => Panicked v
  | Exited code => Exited code
  | Blocked => Blocked
  end.
Proof.
  destruct m as [t [a | v | code | ]]; cbn; try reflexivity.
  destruct (k a); reflexivity.
Qed.

Lemma sat_ret {A : Type} (a : A) (T : Event -> Prop) (Q : A -> Prop) :
  Q a -> sat (ret a) T Q.
Proof.
  intros H. split; cbn.
  - constructor.
  - intros a' [= <-]. exact H.
Qed.

Lemma sat_emit (e : Event) (T : Event -> Prop) (Q : unit -> Prop) :
  T e -> Q tt -> sat (emit e) T Q.
Proof.
  intros He Hq. split; cbn.
  - constructor; [exact He | constructor].
  - intros a [= <-]. exact Hq.
Qed.

Lemma sat_panic {A : Type} (v : error) (T : Event -> Prop) (Q : A -> Prop) :
  sat (panic v) T Q.
Proof. split; cbn; [constructor | discriminate]. Qed.

Lemma sat_bind {A B : Type} (m : M A) (k : A -> M B)
      (T : Event -> Prop) (Q : A -> Prop) (R : B -> Prop) :
  sat m T Q -> (forall a, Q a -> sat (k a) T R) -> sat (bind m k) T R.
Proof.
  intros [Ht Hq] Hk. split.
  - rewrite trace_bind. apply Forall_app. split; [exact Ht |].
    destruct (outcome m) as [a | | | ] eqn:E; try constructor.
    apply (Hk a (Hq a eq_refl)).
  - intros b. rewrite outcome_bind.
    destruct (outcome m) as [a | | | ] eqn:E; try discriminate.
    apply (Hk a (Hq a eq_refl)).
Qed.

Lemma panics_bind_l {A B : Type} (m : M A) (k : A -> M B) :
  panics m -> panics (bind m k).
Proof. intros [v Hv]. exists v. rewrite outcome_bind, Hv. reflexivity. Qed.

Lemma panics_bind_r {A B : Type} (m : M A) (k : A -> M B) :
  completes m -> (forall a, outcome m = Returned a -> panics (k a)) ->
  panics (bind m k).
Proof.
  intros [[a Ha] | Hp] Hk.
  - destruct (Hk a Ha) as [v Hv]. exists v. rewrite outcome_bind, Ha. exact Hv.
  - now apply panics_bind_l.
Qed.

Lemma completes_ret {A : Type} (a : A) : completes (ret a).
Proof. left. exists a. reflexivity. Qed.

Lemma completes_emit (e : Event) : completes (emit e).
Proof. left. exists tt. reflexivity. Qed.

Lemma completes_bind {A B : Type} (m : M A) (k : A -> M B) :
  completes m -> (forall a, outcome m = Returned a -> completes (k a)) ->
  completes (bind m k).
Proof.
  intros [[a Ha] | Hp] Hk.
  - destruct (Hk a Ha) as [[b Hb] | [v Hv]].
    + left. exists b. rewrite outcome_bind, Ha. exact Hb.
    + right. exists v. rewrite outcome_bind, Ha. exact Hv.
  - right. now apply panics_bind_l.
Qed.

(** ** Defaulting *)

(** [defaulting] in closed form: every duration field gets its default when
    it is nil, nothing else changes. *)
Lemma defaulting_closed (c : Config) :
  defaulting c =
  {| Config_RdsConfig :=
       {| RDS_Base :=
            {| Enabled := Enabled (RDS_Base (Config_RdsConfig c));
               Interval := Some (orDefault (15 * Second)
                                   (Interval (RDS_Base (Config_RdsConfig c))));
               CacheTTL := Some (orDefault (35 * Second)
                                   (CacheTTL (RDS_Base (Config_RdsConfig c)))) |};
          RDS_Regions := RDS_Regions (Config_RdsConfig c) |};
     Config_VpcConfig :=
       {| VPC_Base :=
            {| Enabled := Enabled (VPC_Base (Config_VpcConfig c));
               Interval := Some (orDefault (15 * Second)
                                   (Interval (VPC_Base (Config_VpcConfig c))));
               CacheTTL := Some (orDefault (35 * Second)
                                   (CacheTTL (VPC_Base (Config_VpcConfig c)))) |};
          VPC_Timeout := Some (orDefault (10 * Second)
                                 (VPC_Timeout (Config_VpcConfig c)));
          VPC_Regions := VPC_Regions (Config_VpcConfig c) |};
     Config_Route53Config :=
       {| R53_Base :=
            {| Enabled := Enabled (R53_Base (Config_Route53Config c));
               Interval := Some (orDefault (15 * Second)
                                   (Interval (R53_Base (Config_Route53Config c))));
               CacheTTL := Some (orDefault (35 * Second)
                                   (CacheTTL (R53_Base (Config_Route53Config c)))) |};
          R53_Timeout := Some (orDefault (10 * Second)
                                 (R53_Timeout (Config_Route53Config c)));
          R53_Region := R53_Region (Config_Route53Config c) |};
     Config_EC2Config :=
       {| EC2_Base :=
            {| Enabled := Enabled (EC2_Base (Config_EC2Config c));
               Interval := Some (orDefault (15 * Second)
                                   (Interval (EC2_Base (Config_EC2Config c))));
               CacheTTL := Some (orDefault (35 * Second)
                                   (CacheTTL (EC2_Base (Config_EC2Config c)))) |};
          EC2_Timeout := Some (orDefault (10 * Second)
                                 (EC2_Timeout (Config_EC2Config c)));
          EC2_Regions := EC2_Regions (Config_EC2Config c) |} |}.
Proof.
  destruct c as [[[e1 i1 t1] r1] [[e2 i2 t2] o2 r2]
                 [[e3 i3 t3] o3 r3] [[e4 i4 t4] o4 r4]].
  destruct t1, t2, t3, t4, i1, i2, i3, i4, o2, o3, o4; reflexivity.
Qed.

Lemma defaulting_idempotent (c : Config) : defaulting (defaulting c) = defaulting c.
Proof. rewrite (defaulting_closed (defaulting c)), (defaulting_closed c). reflexivity. Qed.

(** What [loadExporterConfiguration] returns, by the two cases of the read. *)
Lemma load_read_ok (env : Env) (configFile : string) (file : list Byte.byte) :
  ioutil_ReadFile env configFile = Ok file ->
  loadExporterConfiguration env configFile =
  ([EvReadFile configFile],
   Returned (Ok (defaulting (fst (yaml_Unmarshal env file zeroConfig))))).
Proof.
  intros H. unfold loadExporterConfiguration, ReadFile. cbn. rewrite H.
  destruct (yaml_Unmarshal env file zeroConfig) as [config e]. reflexivity.
Qed.

Lemma load_read_err (env : Env) (configFile : string) (e : error) :
  ioutil_ReadFile env configFile = Err e ->
  loadExporterConfiguration env configFile =
  ([EvReadFile configFile;
    EvLog LevelError ["Could not load configuration file"]],
   Returned (Err ("Could not load configuration file: " ++ configFile))).
Proof.
  intros H. unfold loadExporterConfiguration, ReadFile. cbn. rewrite H.
  reflexivity.
Qed.

(** C1: when the file is read, [loadExporterConfiguration] returns a
    configuration in which, for each of rds, vpc, route53 and ec2, cacheTTL
    is the parsed value if there is one and 35s otherwise, interval is the
    parsed value or 15s, and the timeout of the kinds that have one (vpc,
    route53, ec2) is the parsed value or 10s. *)
Theorem loadExporterConfiguration_defaults
    (env : Env) (configFile : string) (file : list Byte.byte)
    (parsed : Config) (e : option YamlError) :
  ioutil_ReadFile env configFile = Ok file ->
  yaml_Unmarshal env file zeroConfig = (parsed, e) ->
  exists config,
    outcome (loadExporterConfiguration env configFile) = Returned (Ok config) /\
    forall k : Kind,
      CacheTTL (baseOf k config) =
        match CacheTTL (baseOf k parsed) with
        | Some d => Some d
        | None => Some 35000000000
        end /\
      Interval (baseOf k config) =
        match Interval (baseOf k parsed) with
        | Some d => Some d
        | None => Some 15000000000
        end /\
      timeoutOf k config =
        match timeoutOf k parsed with
        | Some (Some d) => Some (Some d)
        | Some None => Some (Some 10000000000)
        | None => None
        end.
Proof.
  intros Hread Hparse.
  exists (defaulting parsed). split.
  - rewrite (load_read_ok _ _ _ Hread), Hparse. reflexivity.
  - intros k. rewrite defaulting_closed.
    destruct k; cbn [baseOf timeoutOf Config_RdsConfig Config_VpcConfig
                     Config_Route53Config Config_EC2Config RDS_Base VPC_Base
                     R53_Base EC2_Base VPC_Timeout R53_Timeout EC2_Timeout
                     CacheTTL Interval];
      repeat split;
      match goal with
      | |- Some (orDefault _ ?p) = _ => destruct p; reflexivity
      | |- Some (Some (orDefault _ ?p)) = _ => destruct p; reflexivity
      | |- None = None => reflexivity
      end.
Qed.

Lemma loadExporterConfiguration_defaults_witness :
  ioutil_ReadFile Scenario.sample_env CONFIG_FILE_PATH
    = Ok (list_byte_of_string Scenario.sample_yaml) /\
  yaml_Unmarshal Scenario.sample_env
    (list_byte_of_string Scenario.sample_yaml) zeroConfig
    = (Scenario.sample_parsed, None) /\
  exists config,
    outcome (loadExporterConfiguration Scenario.sample_env CONFIG_FILE_PATH)
      = Returned (Ok config) /\
    CacheTTL (baseOf rds config) = Some 60000000000 /\
    CacheTTL (baseOf ec2 config) = Some 35000000000 /\
    Interval (baseOf ec2 config) = Some 30000000000 /\
    Interval (baseOf rds config) = Some 15000000000 /\
    timeoutOf vpc config = Some (Some 5000000000) /\
    timeoutOf ec2 config = Some (Some 10000000000).
Proof.
  split; [reflexivity |]. split; [reflexivity |].
  destruct (loadExporterConfiguration_defaults
              Scenario.sample_env CONFIG_FILE_PATH
              (list_byte_of_string Scenario.sample_yaml)
              Scenario.sample_parsed None eq_refl eq_refl)
    as [config [Hload Hk]].
  exists config. split; [exact Hload |].
  repeat split; first [apply (Hk rds) | apply (Hk ec2) | apply (Hk vpc)].
Defined.

(** C4: whenever the file is read, parsed with an error or without one,
    [loadExporterConfiguration] returns a configuration, and in it the
    interval and cacheTTL pointers of rds, vpc, route53 and ec2 are not
    nil. *)
Theorem loadExporterConfiguration_non_nil
    (env : Env) (configFile : string) (file : list Byte.byte) :
  ioutil_ReadFile env configFile = Ok file ->
  exists config,
    outcome (loadExporterConfiguration env configFile) = Returned (Ok config) /\
    forall k : Kind,
      isNil (Interval (baseOf k config)) = false /\
      isNil (CacheTTL (baseOf k config)) = false.
Proof.
  intros Hread.
  exists (defaulting (fst (yaml_Unmarshal env file zeroConfig))). split.
  - rewrite (load_read_ok _ _ _ Hread). reflexivity.
  - intros k. rewrite defaulting_closed. destruct k; split; reflexivity.
Qed.

Lemma loadExporterConfiguration_non_nil_witness :
  ioutil_ReadFile Scenario.broken_env CONFIG_FILE_PATH
    = Ok (list_byte_of_string Scenario.broken_yaml) /\
  exists config,
    outcome (loadExporterConfiguration Scenario.broken_env CONFIG_FILE_PATH)
      = Returned (Ok config) /\
    forall k : Kind,
      isNil (Interval (baseOf k config)) = false /\
      isNil (CacheTTL (baseOf k config)) = false.
Proof.
  split; [reflexivity |].
  apply (loadExporterConfiguration_non_nil
           Scenario.broken_env CONFIG_FILE_PATH
           (list_byte_of_string Scenario.broken_yaml)).
  reflexivity.
Defined.

(** C5: two invocations of [loadExporterConfiguration] that read the same
    contents (and parse them alike) return the same configuration, that
    configuration is a fixed point of the defaulting step, and the
    defaulting step is idempotent on every configuration. *)
Theorem loadExporterConfiguration_deterministic_idempotent
    (env1 env2 : Env) (configFile1 configFile2 : string)
    (file : list Byte.byte) :
  ioutil_ReadFile env1 configFile1 = Ok file ->
  ioutil_ReadFile env2 configFile2 = Ok file ->
  yaml_Unmarshal env1 file zeroConfig = yaml_Unmarshal env2 file zeroConfig ->
  (exists config,
     outcome (loadExporterConfiguration env1 configFile1) = Returned (Ok config) /\
     outcome (loadExporterConfiguration env2 configFile2) = Returned (Ok config) /\
     defaulting config = config) /\
  (forall c : Config, defaulting (defaulting c) = defaulting c).
Proof.
  intros H1 H2 Hparse. split.
  - exists (defaulting (fst (yaml_Unmarshal env1 file zeroConfig))).
    rewrite (load_read_ok _ _ _ H1), (load_read_ok _ _ _ H2), Hparse.
    repeat split. apply defaulting_idempotent.
  - exact defaulting_idempotent.
Qed.

Lemma loadExporterConfiguration_deterministic_idempotent_witness :
  ioutil_ReadFile Scenario.sample_env CONFIG_FILE_PATH
    = Ok (list_byte_of_string Scenario.sample_yaml) /\
  ioutil_ReadFile Scenario.started_elsewhere_env
      "/usr/local/bin/aws-resource-exporter-config.yaml"
    = Ok (list_byte_of_string Scenario.sample_yaml) /\
  (exists config,
     outcome (loadExporterConfiguration Scenario.sample_env CONFIG_FILE_PATH)
       = Returned (Ok config) /\
     outcome (loadExporterConfiguration Scenario.started_elsewhere_env
                "/usr/local/bin/aws-resource-exporter-config.yaml")
       = Returned (Ok config) /\
     defaulting config = config) /\
  (forall c : Config, defaulting (defaulting c) = defaulting c).
Proof.
  split; [reflexivity |]. split; [reflexivity |].
  apply (loadExporterConfiguration_deterministic_idempotent
           Scenario.sample_env Scenario.started_elsewhere_env
           CONFIG_FILE_PATH "/usr/local/bin/aws-resource-exporter-config.yaml"
           (list_byte_of_string Scenario.sample_yaml));
    reflexivity.
Defined.

(** C6: the defaulting step leaves every enabled flag and every region (list)
    as parsed, leaves every interval, cacheTTL and timeout that is present
    as parsed, and a duration field whose value it changes was nil. *)
Theorem defaulting_frame (c : Config) (k : Kind) :
  Enabled (baseOf k (defaulting c)) = Enabled (baseOf k c) /\
  regionsOf k (defaulting c) = regionsOf k c /\
  (forall d, Interval (baseOf k c) = Some d ->
             Interval (baseOf k (defaulting c)) = Some d) /\
  (forall d, CacheTTL (baseOf k c) = Some d ->
             CacheTTL (baseOf k (defaulting c)) = Some d) /\
  (forall d, timeoutOf k c = Some (Some d) ->
             timeoutOf k (defaulting c) = Some (Some d)) /\
  (Interval (baseOf k (defaulting c)) <> Interval (baseOf k c) ->
   Interval (baseOf k c) = None) /\
  (CacheTTL (baseOf k (defaulting c)) <> CacheTTL (baseOf k c) ->
   CacheTTL (baseOf k c) = None) /\
  (timeoutOf k (defaulting c) <> timeoutOf k c ->
   timeoutOf k c = Some None).
Proof.
  rewrite defaulting_closed.
  destruct k;
    cbn [baseOf timeoutOf regionsOf Config_RdsConfig Config_VpcConfig
         Config_Route53Config Config_EC2Config RDS_Base VPC_Base R53_Base
         EC2_Base RDS_Regions VPC_Regions R53_Region EC2_Regions VPC_Timeout
         R53_Timeout EC2_Timeout Enabled CacheTTL Interval];
    repeat match goal with
           | |- _ /\ _ => split
           end;
    try reflexivity;
    try (intros d H; rewrite H; reflexivity);
    try (intros d H; exact H);
    try (intros d [= H]; rewrite H; reflexivity);
    match goal with
    | |- Some (orDefault _ ?p) <> ?p -> _ =>
        destruct p; intros H; [now destruct H | reflexivity]
    | |- Some (Some (orDefault _ ?p)) <> Some ?p -> _ =>
        destruct p; intros H; [now destruct H | reflexivity]
    | |- None <> None -> _ => intros H; now destruct H
    end.
Qed.

(** ** Errors of the load *)

(** The claim C2 as stated fails: [Scenario.broken_env] has a readable
    configuration file that is not valid structured data, and
    [loadExporterConfiguration] returns a configuration, not an error. *)
Lemma unstructured_file_still_loads :
  ~ (returns_error
       (loadExporterConfiguration Scenario.broken_env CONFIG_FILE_PATH) <->
     (cannot_be_read Scenario.broken_env CONFIG_FILE_PATH \/
      exists file,
        ioutil_ReadFile Scenario.broken_env CONFIG_FILE_PATH = Ok file /\
        spec_not_structured_data Scenario.broken_env file)).
Proof.
  intros [_ H].
  assert (Hrhs : cannot_be_read Scenario.broken_env CONFIG_FILE_PATH \/
                 exists file,
                   ioutil_ReadFile Scenario.broken_env CONFIG_FILE_PATH = Ok file /\
                   spec_not_structured_data Scenario.broken_env file).
  { right. exists (list_byte_of_string Scenario.broken_yaml).
    split; [reflexivity |].
    exists "yaml: did not find expected node content", zeroConfig.
    reflexivity. }
  destruct (H Hrhs) as [e He].
  rewrite (load_read_ok Scenario.broken_env CONFIG_FILE_PATH
             (list_byte_of_string Scenario.broken_yaml) eq_refl) in He.
  discriminate He.
Qed.

(** C2 (amended): [loadExporterConfiguration] returns an error if and only
    if the configuration file cannot be read; when the file is read, the
    error of the unmarshalling, whatever it is, is dropped, and the
    configuration as the unmarshalling left it is returned with the defaults
    applied. *)
Theorem load_error_iff_unreadable (env : Env) (configFile : string) :
  (returns_error (loadExporterConfiguration env configFile) <->
   cannot_be_read env configFile) /\
  (forall file,
     ioutil_ReadFile env configFile = Ok file ->
     outcome (loadExporterConfiguration env configFile) =
     Returned (Ok (defaulting (fst (yaml_Unmarshal env file zeroConfig))))).
Proof.
  split.
  - unfold cannot_be_read.
    destruct (ioutil_ReadFile env configFile) as [file | e] eqn:Hread.
    + rewrite (load_read_ok _ _ _ Hread). split.
      * intros [e He]. discriminate He.
      * intros [e He]. discriminate He.
    + rewrite (load_read_err _ _ _ Hread). split.
      * intros _. exists e. reflexivity.
      * intros _. eexists. reflexivity.
  - intros file Hread. rewrite (load_read_ok _ _ _ Hread). reflexivity.
Qed.

(** ** The events of [setupCollectors] *)

Section Setup.

Variable env : Env.

Lemma sat_emit_any (e : Event) (T : Event -> Prop) :
  T e -> sat (emit e) T (fun _ => True).
Proof. intros H. now apply sat_emit. Qed.

Lemma sat_ret_eq {A : Type} (a : A) (T : Event -> Prop) :
  sat (ret a) T (fun x => x = a).
Proof. now apply sat_ret. Qed.

Lemma sat_Log (lvl : Level) (keyvals : list string) (T : Event -> Prop) :
  T (EvLog lvl keyvals) -> sat (level_Log lvl keyvals) T (fun _ => True).
Proof. apply sat_emit_any. Qed.

Lemma sat_NewSession (region : string) (T : Event -> Prop) :
  T (EvNewSession region) ->
  sat (NewSession env region) T (fun _ => True).
Proof.
  intros H. unfold NewSession.
  eapply sat_bind; [apply sat_emit_any; exact H |].
  intros _ _. now apply sat_ret.
Qed.

Lemma sat_session_Must (r : result Session) (T : Event -> Prop) :
  sat (session_Must r) T (fun _ => True).
Proof. destruct r; [now apply sat_ret | apply sat_panic]. Qed.

Lemma sat_newSessions (T : Event -> Prop) (regions : list string) :
  (forall region, T (EvNewSession region)) ->
  forall sessions, sat (newSessions env regions sessions) T (fun _ => True).
Proof.
  intros HT. induction regions as [| region regions IH]; intros sessions;
    cbn [newSessions].
  - now apply sat_ret.
  - eapply sat_bind; [apply sat_NewSession, HT |].
    intros r _.
    eapply sat_bind; [apply sat_session_Must |].
    intros sess _. apply IH.
Qed.

Lemma sat_load (configFile : string) (T : Event -> Prop) :
  (forall filename, T (EvReadFile filename)) ->
  (forall lvl keyvals, T (EvLog lvl keyvals)) ->
  sat (loadExporterConfiguration env configFile) T (fun _ => True).
Proof.
  intros Hr Hl.
  destruct (ioutil_ReadFile env configFile) as [file | e] eqn:Hread.
  - rewrite (load_read_ok _ _ _ Hread). split; cbn; auto.
  - rewrite (load_read_err _ _ _ Hread). split; cbn; auto.
Qed.

(** A block of [setupCollectors] for one kind: its events are
    [setup_event]s, and the collector it appends, if any, is of an enabled
    kind. *)
Lemma sat_setupVPC (config : Config) (collectors : list Collector) :
  Forall (of_enabled_kind config) collectors ->
  sat (setupVPC env config collectors) (setup_event config)
      (Forall (of_enabled_kind config)).
Proof.
  intros Hcs. unfold setupVPC.
  eapply sat_bind; [apply sat_Log; exact I |]. intros _ _.
  destruct (Enabled (VPC_Base (Config_VpcConfig config))) eqn:Hen.
  - eapply sat_bind; [apply sat_newSessions; intros; exact I |].
    intros sessions _.
    assert (Hc : of_enabled_kind config
                   (VPCExporter sessions (Config_VpcConfig config)))
      by (exists vpc; split; [reflexivity | exact Hen]).
    unfold NewVPCExporter, go_CollectLoop.
    eapply sat_bind.
    { eapply sat_bind; [apply sat_emit_any; exact Hc |].
      intros _ _. apply sat_ret_eq. }
    cbn beta. intros c Heq. subst c.
    eapply sat_bind; [apply sat_emit_any; exact Hc |].
    intros _ _. apply sat_ret.
    apply Forall_app. split; [exact Hcs | now constructor].
  - now apply sat_ret.
Qed.

Lemma sat_setupRDS (config : Config) (collectors : list Collector) :
  Forall (of_enabled_kind config) collectors ->
  sat (setupRDS env config collectors) (setup_event config)
      (Forall (of_enabled_kind config)).
Proof.
  intros Hcs. unfold setupRDS.
  eapply sat_bind; [apply sat_Log; exact I |]. intros _ _.
  destruct (Enabled (RDS_Base (Config_RdsConfig config))) eqn:Hen.
  - eapply sat_bind; [apply sat_newSessions; intros; exact I |].
    intros sessions _.
    assert (Hc : of_enabled_kind config
                   (RDSExporter sessions (Config_RdsConfig config)))
      by (exists rds; split; [reflexivity | exact Hen]).
    unfold NewRDSExporter, go_CollectLoop.
    eapply sat_bind.
    { eapply sat_bind; [apply sat_emit_any; exact Hc |].
      intros _ _. apply sat_ret_eq. }
    cbn beta. intros c Heq. subst c.
    eapply sat_bind; [apply sat_emit_any; exact Hc |].
    intros _ _. apply sat_ret.
    apply Forall_app. split; [exact Hcs | now constructor].
  - now apply sat_ret.
Qed.

Lemma sat_setupEC2 (config : Config) (collectors : list Collector) :
  Forall (of_enabled_kind config) collectors ->
  sat (setupEC2 env config collectors) (setup_event config)
      (Forall (of_enabled_kind config)).
Proof.
  intros Hcs. unfold setupEC2.
  eapply sat_bind; [apply sat_Log; exact I |]. intros _ _.
  destruct (Enabled (EC2_Base (Config_EC2Config config))) eqn:Hen.
  - eapply sat_bind; [apply sat_newSessions; intros; exact I |].
    intros sessions _.
    assert (Hc : of_enabled_kind config
                   (EC2Exporter sessions (Config_EC2Config config)))
      by (exists ec2; split; [reflexivity | exact Hen]).
    unfold NewEC2Exporter, go_CollectLoop.
    eapply sat_bind.
    { eapply sat_bind; [apply sat_emit_any; exact Hc |].
      intros _ _. apply sat_ret_eq. }
    cbn beta. intros c Heq. subst c.
    eapply sat_bind; [apply sat_emit_any; exact Hc |].
    intros _ _. apply sat_ret.
    apply Forall_app. split; [exact Hcs | now constructor].
  - now apply sat_ret.
Qed.

Lemma sat_setupRoute53 (config : Config) (collectors : list Collector) :
  Forall (of_enabled_kind config) collectors ->
  sat (setupRoute53 env config collectors) (setup_event config)
      (Forall (of_enabled_kind config)).
Proof.
  intros Hcs. unfold setupRoute53.
  eapply sat_bind; [apply sat_Log; exact I |]. intros _ _.
  destruct (Enabled (R53_Base (Config_Route53Config config))) eqn:Hen.
  - eapply sat_bind; [apply sat_NewSession; exact I |].
    intros r _.
    eapply sat_bind; [apply sat_session_Must |].
    intros sess _.
    assert (Hc : of_enabled_kind config
                   (Route53Exporter sess (Config_Route53Config config)))
      by (exists route53; split; [reflexivity | exact Hen]).
    unfold NewRoute53Exporter, go_CollectLoop.
    eapply sat_bind.
    { eapply sat_bind; [apply sat_emit_any; exact Hc |].
      intros _ _. apply sat_ret_eq. }
    cbn beta. intros c Heq. subst c.
    eapply sat_bind; [apply sat_emit_any; exact Hc |].
    intros _ _. apply sat_ret.
    apply Forall_app. split; [exact Hcs | now constructor].
  - now apply sat_ret.
Qed.

End Setup.

Lemma sat_of_outcome {A : Type} (m : M A) (T : Event -> Prop) (a : A) :
  Forall T (trace m) -> outcome m = Returned a -> sat m T (fun x => x = a).
Proof.
  intros Ht Ho. split; [exact Ht |].
  intros a' Ha'. rewrite Ho in Ha'. now injection Ha' as <-.
Qed.

Lemma load_trace (env : Env) (configFile : string) (T : Event -> Prop) :
  (forall filename, T (EvReadFile filename)) ->
  (forall lvl keyvals, T (EvLog lvl keyvals)) ->
  Forall T (trace (loadExporterConfiguration env configFile)).
Proof. intros Hr Hl. now apply (sat_load env configFile T). Qed.

(** With the configuration [config] loaded, [setupCollectors] builds and
    starts collectors of enabled kinds only, and returns such collectors. *)
Lemma setupCollectors_events (env : Env) (configFile : string) (config : Config) :
  outcome (loadExporterConfiguration env configFile) = Returned (Ok config) ->
  sat (setupCollectors env configFile) (setup_event config)
      (fun r => match r with
                | Ok cs => Forall (of_enabled_kind config) cs
                | Err _ => False
                end).
Proof.
  intros Hload. unfold setupCollectors.
  eapply sat_bind.
  { apply sat_of_outcome; [| exact Hload].
    apply load_trace; intros; exact I. }
  cbn beta. intros r Hr. subst r.
  do 4 (eapply sat_bind; [apply sat_Log; exact I |]; intros _ _).
  eapply sat_bind; [apply sat_setupVPC; constructor |]. intros cs1 H1.
  eapply sat_bind; [apply sat_setupRDS; exact H1 |]. intros cs2 H2.
  eapply sat_bind; [apply sat_setupEC2; exact H2 |]. intros cs3 H3.
  eapply sat_bind; [apply sat_setupRoute53; exact H3 |]. intros cs4 H4.
  apply sat_ret. exact H4.
Qed.

Lemma setupCollectors_read_err (env : Env) (configFile : string) (e : error) :
  ioutil_ReadFile env configFile = Err e ->
  setupCollectors env configFile =
  ([EvReadFile configFile;
    EvLog LevelError ["Could not load configuration file"]],
   Returned (Err ("Could not load configuration file: " ++ configFile))).
Proof.
  intros H. unfold setupCollectors. rewrite (load_read_err _ _ _ H).
  reflexivity.
Qed.

Lemma Kind_eqb_eq (a b : Kind) : Kind_eqb a b = true -> a = b.
Proof. destruct a, b; cbn; intros H; first [reflexivity | discriminate H]. Qed.

Lemma disabled_not_of_kind (config : Config) (k : Kind) (c : Collector) :
  Enabled (baseOf k config) = false ->
  of_enabled_kind config c -> is_of_kind k c = false.
Proof.
  intros Hoff [k' [Hk' Hon]]. unfold is_of_kind. rewrite Hk'.
  destruct (Kind_eqb k k') eqn:E; [| reflexivity].
  apply Kind_eqb_eq in E. subst k'. congruence.
Qed.

(** C3: when the loaded configuration has a kind disabled, [setupCollectors]
    neither constructs a collector of that kind nor starts its [CollectLoop]
    goroutine, and the collectors it returns (the ones [run] registers for
    scraping) have none of that kind. *)
Theorem setupCollectors_disabled_kind
    (env : Env) (configFile : string) (config : Config) (k : Kind) :
  outcome (loadExporterConfiguration env configFile) = Returned (Ok config) ->
  Enabled (baseOf k config) = false ->
  Forall (fun e => concerns k e = false) (trace (setupCollectors env configFile)) /\
  forall cs,
    outcome (setupCollectors env configFile) = Returned (Ok cs) ->
    Forall (fun c => is_of_kind k c = false) cs.
Proof.
  intros Hload Hoff.
  destruct (setupCollectors_events env configFile config Hload) as [Ht Hr].
  split.
  - eapply Forall_impl; [| exact Ht].
    intros e He. destruct e; cbn in *; try reflexivity;
      now apply (disabled_not_of_kind config).
  - intros cs Hcs. specialize (Hr _ Hcs). cbn in Hr.
    eapply Forall_impl; [| exact Hr].
    intros c. now apply disabled_not_of_kind.
Qed.

Lemma setupCollectors_disabled_kind_witness :
  outcome (loadExporterConfiguration Scenario.sample_env CONFIG_FILE_PATH)
    = Returned (Ok (defaulting Scenario.sample_parsed)) /\
  Enabled (baseOf vpc (defaulting Scenario.sample_parsed)) = false /\
  Forall (fun e => concerns vpc e = false)
         (trace (setupCollectors Scenario.sample_env CONFIG_FILE_PATH)) /\
  forall cs,
    outcome (setupCollectors Scenario.sample_env CONFIG_FILE_PATH)
      = Returned (Ok cs) ->
    Forall (fun c => is_of_kind vpc c = false) cs.
Proof.
  split; [reflexivity |]. split; [reflexivity |].
  apply (setupCollectors_disabled_kind
           Scenario.sample_env CONFIG_FILE_PATH
           (defaulting Scenario.sample_parsed) vpc);
    reflexivity.
Defined.

(** The sample run: rds and ec2 are enabled, so their collectors are built
    and their loops started, in the order of the source. *)
Example setupCollectors_sample :
  outcome (setupCollectors Scenario.sample_env CONFIG_FILE_PATH) =
  Returned
    (Ok [RDSExporter [{| Session_Region := "us-east-1" |}]
           (Config_RdsConfig (defaulting Scenario.sample_parsed));
         EC2Exporter [{| Session_Region := "eu-west-1" |}]
           (Config_EC2Config (defaulting Scenario.sample_parsed))]) /\
  filter starts_loop (trace (setupCollectors Scenario.sample_env CONFIG_FILE_PATH)) =
  [EvGoCollectLoop
     (RDSExporter [{| Session_Region := "us-east-1" |}]
        (Config_RdsConfig (defaulting Scenario.sample_parsed)));
   EvGoCollectLoop
     (EC2Exporter [{| Session_Region := "eu-west-1" |}]
        (Config_EC2Config (defaulting Scenario.sample_parsed)))].
Proof. split; reflexivity. Qed.

(** C10: when the file is read and the unmarshalling fails leaving the
    configuration untouched, [loadExporterConfiguration] returns the zero
    configuration with the defaults applied, in which every kind is
    disabled; [setupCollectors] then returns an empty list of collectors and
    starts no refresh loop. *)
Theorem setupCollectors_unmarshal_failed
    (env : Env) (configFile : string) (file : list Byte.byte) (e : YamlError) :
  ioutil_ReadFile env configFile = Ok file ->
  yaml_Unmarshal env file zeroConfig = (zeroConfig, Some e) ->
  outcome (loadExporterConfiguration env configFile)
    = Returned (Ok (defaulting zeroConfig)) /\
  (forall k : Kind,
     Enabled (baseOf k (defaulting zeroConfig)) = false /\
     Interval (baseOf k (defaulting zeroConfig)) = Some 15000000000 /\
     CacheTTL (baseOf k (defaulting zeroConfig)) = Some 35000000000) /\
  outcome (setupCollectors env configFile) = Returned (Ok []) /\
  Forall (fun ev => starts_loop ev = false) (trace (setupCollectors env configFile)).
Proof.
  intros Hread Hparse.
  assert (Hload : loadExporterConfiguration env configFile =
                  ([EvReadFile configFile], Returned (Ok (defaulting zeroConfig)))).
  { rewrite (load_read_ok _ _ _ Hread), Hparse. reflexivity. }
  split; [rewrite Hload; reflexivity |].
  split; [intros k; destruct k; repeat split; reflexivity |].
  unfold setupCollectors. rewrite Hload. cbn.
  split; [reflexivity |].
  repeat constructor.
Qed.

Lemma setupCollectors_unmarshal_failed_witness :
  ioutil_ReadFile Scenario.broken_env CONFIG_FILE_PATH
    = Ok (list_byte_of_string Scenario.broken_yaml) /\
  yaml_Unmarshal Scenario.broken_env
    (list_byte_of_string Scenario.broken_yaml) zeroConfig
    = (zeroConfig, Some (SyntaxError "yaml: did not find expected node content")) /\
  outcome (setupCollectors Scenario.broken_env CONFIG_FILE_PATH) = Returned (Ok []) /\
  Forall (fun ev => starts_loop ev = false)
         (trace (setupCollectors Scenario.broken_env CONFIG_FILE_PATH)).
Proof.
  split; [reflexivity |]. split; [reflexivity |].
  apply (setupCollectors_unmarshal_failed
           Scenario.broken_env CONFIG_FILE_PATH
           (list_byte_of_string Scenario.broken_yaml)
           (SyntaxError "yaml: did not find expected node content"));
    reflexivity.
Defined.

(** ** Fail-fast session construction *)

Section FailFast.

Variable env : Env.

Lemma completes_Log (lvl : Level) (keyvals : list string) :
  completes (level_Log lvl keyvals).
Proof. apply completes_emit. Qed.

Lemma completes_NewSession (region : string) :
  completes (NewSession env region).
Proof.
  unfold NewSession. apply completes_bind; [apply completes_emit |].
  intros _ _. apply completes_ret.
Qed.

Lemma completes_session_Must (r : result Session) : completes (session_Must r).
Proof.
  destruct r as [sess | err]; [apply completes_ret |].
  right. exists err. reflexivity.
Qed.

Lemma outcome_NewSession (region : string) :
  outcome (NewSession env region) = Returned (session_NewSession env region).
Proof. reflexivity. Qed.

Lemma completes_newSessions (regions : list string) :
  forall sessions, completes (newSessions env regions sessions).
Proof.
  induction regions as [| region regions IH]; intros sessions;
    cbn [newSessions].
  - apply completes_ret.
  - apply completes_bind; [apply completes_NewSession |]. intros r _.
    apply completes_bind; [apply completes_session_Must |]. intros sess _.
    apply IH.
Qed.

(** One region whose session cannot be created makes the whole loop
    panic, at that region or at an earlier one. *)
Lemma newSessions_panics (region : string) (e : error) (regions : list string) :
  In region regions ->
  session_NewSession env region = Err e ->
  forall sessions, panics (newSessions env regions sessions).
Proof.
  intros Hin Hfail.
  induction regions as [| region' regions IH]; intros sessions;
    [destruct Hin |].
  cbn [newSessions].
  apply panics_bind_r; [apply completes_NewSession |].
  intros r Hr. rewrite outcome_NewSession in Hr. injection Hr as <-.
  destruct Hin as [-> | Hin].
  - rewrite Hfail. apply panics_bind_l. exists e. reflexivity.
  - apply panics_bind_r; [apply completes_session_Must |].
    intros sess _. now apply IH.
Qed.

Lemma completes_setupVPC (config : Config) (collectors : list Collector) :
  completes (setupVPC env config collectors).
Proof.
  unfold setupVPC. apply completes_bind; [apply completes_Log |]. intros _ _.
  destruct (Enabled (VPC_Base (Config_VpcConfig config)));
    [| apply completes_ret].
  apply completes_bind; [apply completes_newSessions |]. intros sessions _.
  left. eexists. reflexivity.
Qed.

Lemma completes_setupRDS (config : Config) (collectors : list Collector) :
  completes (setupRDS env config collectors).
Proof.
  unfold setupRDS. apply completes_bind; [apply completes_Log |]. intros _ _.
  destruct (Enabled (RDS_Base (Config_RdsConfig config)));
    [| apply completes_ret].
  apply completes_bind; [apply completes_newSessions |]. intros sessions _.
  left. eexists. reflexivity.
Qed.

Lemma completes_setupEC2 (config : Config) (collectors : list Collector) :
  completes (setupEC2 env config collectors).
Proof.
  unfold setupEC2. apply completes_bind; [apply completes_Log |]. intros _ _.
  destruct (Enabled (EC2_Base (Config_EC2Config config)));
    [| apply completes_ret].
  apply completes_bind; [apply completes_newSessions |]. intros sessions _.
  left. eexists. reflexivity.
Qed.

(** The block of an enabled kind panics when one of the kind's regions has
    no session. *)
Lemma setupVPC_panics (config : Config) (collectors : list Collector)
      (region : string) (e : error) :
  Enabled (VPC_Base (Config_VpcConfig config)) = true ->
  In region (VPC_Regions (Config_VpcConfig config)) ->
  session_NewSession env region = Err e ->
  panics (setupVPC env config collectors).
Proof.
  intros Hon Hin Hfail. unfold setupVPC. rewrite Hon.
  apply panics_bind_r; [apply completes_Log |]. intros _ _.
  apply panics_bind_l. now apply (newSessions_panics region e).
Qed.

Lemma setupRDS_panics (config : Config) (collectors : list Collector)
      (region : string) (e : error) :
  Enabled (RDS_Base (Config_RdsConfig config)) = true ->
  In region (RDS_Regions (Config_RdsConfig config)) ->
  session_NewSession env region = Err e ->
  panics (setupRDS env config collectors).
Proof.
  intros Hon Hin Hfail. unfold setupRDS. rewrite Hon.
  apply panics_bind_r; [apply completes_Log |]. intros _ _.
  apply panics_bind_l. now apply (newSessions_panics region e).
Qed.

Lemma setupEC2_panics (config : Config) (collectors : list Collector)
      (region : string) (e : error) :
  Enabled (EC2_Base (Config_EC2Config config)) = true ->
  In region (EC2_Regions (Config_EC2Config config)) ->
  session_NewSession env region = Err e ->
  panics (setupEC2 env config collectors).
Proof.
  intros Hon Hin Hfail. unfold setupEC2. rewrite Hon.
  apply panics_bind_r; [apply completes_Log |]. intros _ _.
  apply panics_bind_l. now apply (newSessions_panics region e).
Qed.

Lemma setupRoute53_panics (config : Config) (collectors : list Collector)
      (e : error) :
  Enabled (R53_Base (Config_Route53Config config)) = true ->
  session_NewSession env (R53_Region (Config_Route53Config config)) = Err e ->
  panics (setupRoute53 env config collectors).
Proof.
  intros Hon Hfail. unfold setupRoute53. rewrite Hon.
  apply panics_bind_r; [apply completes_Log |]. intros _ _.
  apply panics_bind_r; [apply completes_NewSession |].
  intros r Hr. rewrite outcome_NewSession in Hr. injection Hr as <-.
  rewrite Hfail. apply panics_bind_l. exists e. reflexivity.
Qed.

Lemma setupCollectors_panics (configFile : string) (config : Config)
      (k : Kind) (region : string) (e : error) :
  outcome (loadExporterConfiguration env configFile) = Returned (Ok config) ->
  Enabled (baseOf k config) = true ->
  In region (regionsOf k config) ->
  session_NewSession env region = Err e ->
  panics (setupCollectors env configFile).
Proof.
  intros Hload Hon Hin Hfail. unfold setupCollectors.
  apply panics_bind_r; [left; eexists; exact Hload |].
  intros r Hr. rewrite Hload in Hr. injection Hr as <-.
  do 4 (apply panics_bind_r; [apply completes_Log |]; intros _ _).
  destruct k; cbn [baseOf regionsOf] in Hon, Hin.
  - (* rds: the second block *)
    apply panics_bind_r; [apply completes_setupVPC |]. intros cs1 _.
    apply panics_bind_l. now apply (setupRDS_panics _ _ region e).
  - (* vpc: the first block *)
    apply panics_bind_l. now apply (setupVPC_panics _ _ region e).
  - (* route53: the last block *)
    apply panics_bind_r; [apply completes_setupVPC |]. intros cs1 _.
    apply panics_bind_r; [apply completes_setupRDS |]. intros cs2 _.
    apply panics_bind_r; [apply completes_setupEC2 |]. intros cs3 _.
    apply panics_bind_l.
    destruct Hin as [<- | []].
    now apply (setupRoute53_panics _ _ e).
  - (* ec2: the third block *)
    apply panics_bind_r; [apply completes_setupVPC |]. intros cs1 _.
    apply panics_bind_r; [apply completes_setupRDS |]. intros cs2 _.
    apply panics_bind_l. now apply (setupEC2_panics _ _ region e).
Qed.

(** No event of [setupCollectors] registers a handler or starts the
    listener. *)
Lemma setupCollectors_not_serving (configFile : string) :
  Forall (fun ev => serving ev = false) (trace (setupCollectors env configFile)).
Proof.
  destruct (ioutil_ReadFile env configFile) as [file | e] eqn:Hread.
  - assert (Hload := load_read_ok env configFile file Hread).
    apply (f_equal outcome) in Hload. cbn [outcome snd] in Hload.
    destruct (setupCollectors_events env configFile _ Hload) as [Ht _].
    eapply Forall_impl; [| exact Ht].
    intros ev Hev. destruct ev; cbn in *; first [reflexivity | destruct Hev].
  - rewrite (setupCollectors_read_err _ _ _ Hread). repeat constructor.
Qed.

(** [run] when the call of [setupCollectors] panics: the panic is not
    recovered, and nothing after the call happens. *)
Lemma run_panics_in_setup (flags : Flags) (v : error) :
  kingpin_Parse env = inr flags ->
  outcome (setupCollectors env (configFile env)) = Panicked v ->
  run env =
  (EvLog LevelInfo ["msg"; "Starting" ++ namespace; "version"; version_Info env]
   :: EvLog LevelInfo ["msg"; "Build context"; version_BuildContext env]
   :: trace (setupCollectors env (configFile env)),
   Panicked v).
Proof.
  intros Hparse Hpanic. unfold run, Parse. rewrite Hparse.
  destruct (setupCollectors env (configFile env)) as [t o].
  cbn in Hpanic. subst o. reflexivity.
Qed.

(** [run] when [setupCollectors] returns an error. *)
Lemma run_setup_error (flags : Flags) (err : error) :
  kingpin_Parse env = inr flags ->
  outcome (setupCollectors env (configFile env)) = Returned (Err err) ->
  run env =
  (EvLog LevelInfo ["msg"; "Starting" ++ namespace; "version"; version_Info env]
   :: EvLog LevelInfo ["msg"; "Build context"; version_BuildContext env]
   :: (trace (setupCollectors env (configFile env))
         ++ [EvLog LevelError
               ["msg"; "Could not load configuration file"; "err"; err]])%list,
   Returned 1).
Proof.
  intros Hparse Herr. unfold run, Parse. rewrite Hparse.
  destruct (setupCollectors env (configFile env)) as [t o].
  cbn in Herr. subst o. reflexivity.
Qed.

End FailFast.

(** C9: when a kind is enabled in the loaded configuration and the session
    of one of its configured regions cannot be created, [setupCollectors]
    panics instead of returning collectors for the other kinds; the panic
    goes through [run] unrecovered, so the process dies, and no HTTP handler
    is registered and no listener started before it does. *)
Theorem session_failure_is_fatal
    (env : Env) (flags : Flags) (config : Config)
    (k : Kind) (region : string) (e : error) :
  kingpin_Parse env = inr flags ->
  outcome (loadExporterConfiguration env (configFile env)) = Returned (Ok config) ->
  Enabled (baseOf k config) = true ->
  In region (regionsOf k config) ->
  session_NewSession env region = Err e ->
  panics (setupCollectors env (configFile env)) /\
  panics (run env) /\
  Forall (fun ev => serving ev = false) (trace (run env)).
Proof.
  intros Hparse Hload Hon Hin Hfail.
  assert (Hp : panics (setupCollectors env (configFile env)))
    by now apply (setupCollectors_panics env _ config k region e).
  split; [exact Hp |].
  destruct Hp as [v Hv].
  rewrite (run_panics_in_setup env flags v Hparse Hv).
  split; [exists v; reflexivity |].
  cbn [trace fst].
  repeat (constructor; [reflexivity |]).
  apply setupCollectors_not_serving.
Qed.

Lemma session_failure_is_fatal_witness :
  kingpin_Parse Scenario.no_session_env = inr Scenario.default_flags /\
  outcome (loadExporterConfiguration Scenario.no_session_env
             (configFile Scenario.no_session_env))
    = Returned (Ok (defaulting Scenario.sample_parsed)) /\
  Enabled (baseOf ec2 (defaulting Scenario.sample_parsed)) = true /\
  In "eu-west-1" (regionsOf ec2 (defaulting Scenario.sample_parsed)) /\
  panics (setupCollectors Scenario.no_session_env
            (configFile Scenario.no_session_env)) /\
  panics (run Scenario.no_session_env) /\
  Forall (fun ev => serving ev = false) (trace (run Scenario.no_session_env)).
Proof.
  split; [reflexivity |]. split; [reflexivity |]. split; [reflexivity |].
  split; [left; reflexivity |].
  apply (session_failure_is_fatal
           Scenario.no_session_env Scenario.default_flags
           (defaulting Scenario.sample_parsed) ec2 "eu-west-1"
           "LoadCustomCABundleError: unable to load custom CA bundle file").
  - reflexivity.
  - reflexivity.
  - reflexivity.
  - left. reflexivity.
  - reflexivity.
Defined.

(** In that run the first enabled kind in the order of the source is rds:
    its first session panics, before any collector is built. *)
Example run_no_session :
  run Scenario.no_session_env =
  ([EvLog LevelInfo ["msg"; "Startingaws_resources_exporter"; "version";
                     "(version=, branch=, revision=)"];
    EvLog LevelInfo ["msg"; "Build context"; "(go=, user=, date=)"];
    EvReadFile "./aws-resource-exporter-config.yaml";
    EvLog LevelInfo ["msg"; "Configuring vpc with regions"; "regions";
                     "us-east-1,us-west-2"];
    EvLog LevelInfo ["msg"; "Configuring rds with regions"; "regions"; "us-east-1"];
    EvLog LevelInfo ["msg"; "Configuring ec2 with regions"; "regions"; "eu-west-1"];
    EvLog LevelInfo ["msg"; "Configuring route53 with region"; "region"; ""];
    EvLog LevelInfo ["msg"; "Will VPC metrics be gathered?"; "vpc-enabled"; "false"];
    EvLog LevelInfo ["msg"; "Will RDS metrics be gathered?"; "rds-enabled"; "true"];
    EvNewSession "us-east-1"],
   Panicked "LoadCustomCABundleError: unable to load custom CA bundle file").
Proof. reflexivity. Qed.

(** ** The exit status of [run] *)

(** C7: when the configuration file cannot be read, [setupCollectors]
    returns an error, [run] returns 1, and up to that return no HTTP handler
    is registered and [ListenAndServe] is not called. *)
Theorem run_config_missing (env : Env) (flags : Flags) :
  kingpin_Parse env = inr flags ->
  cannot_be_read env (configFile env) ->
  returns_error (setupCollectors env (configFile env)) /\
  outcome (run env) = Returned 1 /\
  Forall (fun ev => serving ev = false) (trace (run env)).
Proof.
  intros Hparse [e Hread].
  assert (Hsetup := setupCollectors_read_err env (configFile env) e Hread).
  assert (Herr : outcome (setupCollectors env (configFile env)) =
                 Returned (Err ("Could not load configuration file: "
                                  ++ configFile env)))
    by (rewrite Hsetup; reflexivity).
  split; [eexists; exact Herr |].
  rewrite (run_setup_error env flags _ Hparse Herr).
  split; [reflexivity |].
  cbn [trace fst]. rewrite Hsetup. repeat constructor.
Qed.

Lemma run_config_missing_witness :
  kingpin_Parse Scenario.no_file_env = inr Scenario.default_flags /\
  cannot_be_read Scenario.no_file_env (configFile Scenario.no_file_env) /\
  returns_error (setupCollectors Scenario.no_file_env
                   (configFile Scenario.no_file_env)) /\
  outcome (run Scenario.no_file_env) = Returned 1 /\
  Forall (fun ev => serving ev = false) (trace (run Scenario.no_file_env)).
Proof.
  split; [reflexivity |].
  split; [eexists; reflexivity |].
  apply (run_config_missing Scenario.no_file_env Scenario.default_flags).
  - reflexivity.
  - eexists. reflexivity.
Defined.

(** The sample run, for comparison: the handlers are registered and the
    listener is started, and the SIGTERM makes [run] return 0. *)
Example run_sample :
  outcome (run Scenario.sample_env) = Returned 0 /\
  filter serving (trace (run Scenario.sample_env)) =
  [EvHandle "/metrics"; EvHandleFunc "/"; EvGoListenAndServe ":9115"].
Proof. split; reflexivity. Qed.

(** ** The path of the configuration file *)

Lemma In_trace_bind_l {A B : Type} (m : M A) (k : A -> M B) (e : Event) :
  In e (trace m) -> In e (trace (bind m k)).
Proof. intros H. rewrite trace_bind. apply in_or_app. now left. Qed.

Lemma In_trace_bind_r {A B : Type} (m : M A) (k : A -> M B) (a : A) (e : Event) :
  outcome m = Returned a -> In e (trace (k a)) -> In e (trace (bind m k)).
Proof.
  intros Ho H. rewrite trace_bind, Ho. apply in_or_app. now right.
Qed.

(** [run] reads the file named [configFile], once the flags are parsed. *)
Lemma run_reads_configFile (env : Env) (flags : Flags) :
  kingpin_Parse env = inr flags ->
  In (EvReadFile (configFile env)) (trace (run env)).
Proof.
  intros Hparse. unfold run, Parse. rewrite Hparse.
  eapply In_trace_bind_r; [reflexivity |].
  eapply In_trace_bind_r; [reflexivity |].
  eapply In_trace_bind_r; [reflexivity |].
  apply In_trace_bind_l. unfold setupCollectors.
  apply In_trace_bind_l. unfold loadExporterConfiguration.
  apply In_trace_bind_l. unfold ReadFile.
  apply In_trace_bind_l. left. reflexivity.
Qed.

Lemma resolve_default (cwd : string) :
  resolve cwd CONFIG_FILE_PATH = cwd ++ "/aws-resource-exporter-config.yaml".
Proof. reflexivity. Qed.

(** The claim C8 as stated fails: [Scenario.started_elsewhere] has the
    variable unset and its executable in [/usr/local/bin], and the file the
    default path stands for is in the working directory [/srv], not next to
    the executable. *)
Lemma default_path_next_to_executable_fails :
  ~ (os_Getenv Scenario.started_elsewhere_env "AWS_RESOURCE_EXPORTER_CONFIG_FILE"
       = "" ->
     resolve (proc_cwd Scenario.started_elsewhere)
             (configFile Scenario.started_elsewhere_env)
       = spec_next_to_executable Scenario.started_elsewhere).
Proof.
  intros H. specialize (H eq_refl). discriminate H.
Qed.

(** In that process the configuration file next to the executable is not
    found: [run] reports the load failure and returns 1. *)
Example run_started_elsewhere :
  proc_files Scenario.started_elsewhere
    (spec_next_to_executable Scenario.started_elsewhere)
    = Some (list_byte_of_string Scenario.sample_yaml) /\
  filter (fun ev => match ev with EvReadFile _ => true | _ => false end)
         (trace (run Scenario.started_elsewhere_env))
    = [EvReadFile "./aws-resource-exporter-config.yaml"] /\
  outcome (run Scenario.started_elsewhere_env) = Returned 1.
Proof. repeat split; reflexivity. Qed.

(** C8 (amended): the configuration file path is the value of the environment
    variable AWS_RESOURCE_EXPORTER_CONFIG_FILE when that value is not empty,
    and the relative path ./aws-resource-exporter-config.yaml otherwise; it
    is the path [run] reads, and the default stands for the file of that name
    in the working directory of the process. *)
Theorem configFile_selection (env : Env) :
  (os_Getenv env "AWS_RESOURCE_EXPORTER_CONFIG_FILE" <> "" ->
   configFile env = os_Getenv env "AWS_RESOURCE_EXPORTER_CONFIG_FILE") /\
  (os_Getenv env "AWS_RESOURCE_EXPORTER_CONFIG_FILE" = "" ->
   configFile env = "./aws-resource-exporter-config.yaml") /\
  (forall flags, kingpin_Parse env = inr flags ->
                 In (EvReadFile (configFile env)) (trace (run env))) /\
  (forall (p : Process) (lib : Env),
     proc_environ p "AWS_RESOURCE_EXPORTER_CONFIG_FILE" = "" ->
     resolve (proc_cwd p) (configFile (Process_env p lib))
       = proc_cwd p ++ "/aws-resource-exporter-config.yaml").
Proof.
  split; [| split; [| split]].
  - intros Hne. unfold configFile.
    destruct (String.eqb_spec
                (os_Getenv env "AWS_RESOURCE_EXPORTER_CONFIG_FILE") "")
      as [Heq | _]; [now destruct Hne | reflexivity].
  - intros Heq. unfold configFile. rewrite Heq. reflexivity.
  - intros flags. apply run_reads_configFile.
  - intros p lib Hunset. unfold configFile. cbn [os_Getenv Process_env].
    rewrite Hunset. apply resolve_default.
Qed.

(** With the variable set, the sample configuration is read from the path
    it names. *)
Example configFile_from_environment :
  let p := {| proc_environ := fun name =>
                if (name =? "AWS_RESOURCE_EXPORTER_CONFIG_FILE")%string
                then "/etc/exporter/config.yaml" else "";
              proc_cwd := "/srv";
              proc_executable_dir := "/usr/local/bin";
              proc_files := fun path =>
                if (path =? "/etc/exporter/config.yaml")%string
                then Some (list_byte_of_string Scenario.sample_yaml)
                else None |} in
  configFile (Process_env p Scenario.lib) = "/etc/exporter/config.yaml" /\
  outcome (run (Process_env p Scenario.lib)) = Returned 0.
Proof. split; reflexivity. Qed.

(** * Further properties *)

(** ** More on the monad *)

Lemma bind_assoc {A B C : Type} (m : M A) (f : A -> M B) (g : B -> M C) :
  bind (bind m f) g = bind m (fun a => bind (f a) g).
Proof.
  destruct m as [t [a | v | code | ]]; cbn; try reflexivity.
  destruct (f a) as [t1 [b | v | code | ]]; cbn; try reflexivity.
  destruct (g b) as [t2 o]. now rewrite app_assoc.
Qed.

Lemma bind_returned_inv {A B : Type} (m : M A) (k : A -> M B) (b : B) :
  outcome (bind m k) = Returned b ->
  exists a, outcome m = Returned a /\ outcome (k a) = Returned b /\
            trace (bind m k) = (trace m ++ trace (k a))%list.
Proof.
  rewrite outcome_bind, trace_bind.
  destruct (outcome m) as [a | | | ]; try discriminate.
  intros H. exists a. repeat split. exact H.
Qed.

Lemma bind_panicked_inv {A B : Type} (m : M A) (k : A -> M B) (v : error) :
  outcome (bind m k) = Panicked v ->
  outcome m = Panicked v \/
  exists a, outcome m = Returned a /\ outcome (k a) = Panicked v.
Proof.
  rewrite outcome_bind.
  destruct (outcome m) as [a | v' | | ]; try discriminate.
  - intros H. right. exists a. split; [reflexivity | exact H].
  - intros H. left. now injection H as ->.
Qed.

Lemma returns_bind {A B : Type} (m : M A) (k : A -> M B) :
  returns m -> (forall a, outcome m = Returned a -> returns (k a)) ->
  returns (bind m k).
Proof.
  intros [a Ha] Hk. destruct (Hk a Ha) as [b Hb].
  exists b. rewrite outcome_bind, Ha. exact Hb.
Qed.

Lemma filter_none {A : Type} (f : A -> bool) (l : list A) :
  Forall (fun x => f x = false) l -> filter f l = [].
Proof.
  induction 1 as [| x l Hx _ IH]; cbn; [reflexivity |]. now rewrite Hx.
Qed.

(** ** Sessions *)

Section Sessions.

Variable env : Env.

(** When every region has a session, the loop returns them in the order
    of the regions, after what it was given. *)
Lemma newSessions_ok (regions : list string) :
  forall (new sessions : list Session),
    map (session_NewSession env) regions = map Ok new ->
    newSessions env regions sessions =
    (map EvNewSession regions, Returned (sessions ++ new)%list).
Proof.
  induction regions as [| region regions IH]; intros new sessions Hmap.
  - destruct new; [| discriminate Hmap]. cbn. now rewrite app_nil_r.
  - destruct new as [| sess new]; [discriminate Hmap |].
    cbn [map] in Hmap. injection Hmap as Hhead Htail.
    cbn [newSessions]. unfold NewSession. cbn. rewrite Hhead. cbn.
    rewrite (IH new (sessions ++ [sess])%list Htail).
    now rewrite <- app_assoc.
Qed.

(** When some region has no session, the loop panics with the error of the
    first such region, having asked for no session after it. *)
Lemma newSessions_first_failure
      (before : list string) (region : string) (after : list string)
      (got : list Session) (e : error) :
  map (session_NewSession env) before = map Ok got ->
  session_NewSession env region = Err e ->
  forall sessions,
    newSessions env (before ++ region :: after) sessions =
    (map EvNewSession (before ++ [region]), Panicked e).
Proof.
  revert got.
  induction before as [| r before IH]; intros got Hmap Hfail sessions.
  - cbn. rewrite Hfail. reflexivity.
  - destruct got as [| sess got]; [discriminate Hmap |].
    cbn [map] in Hmap. injection Hmap as Hhead Htail.
    cbn [newSessions app]. unfold NewSession. cbn. rewrite Hhead. cbn.
    rewrite (IH got Htail Hfail). reflexivity.
Qed.

(** One of the two happens. *)
Lemma sessions_or_first_failure (regions : list string) :
  (exists new, map (session_NewSession env) regions = map Ok new) \/
  (exists before region after got e,
     regions = (before ++ region :: after)%list /\
     map (session_NewSession env) before = map Ok got /\
     session_NewSession env region = Err e).
Proof.
  induction regions as [| r regions IH].
  - left. exists []. reflexivity.
  - destruct (session_NewSession env r) as [sess | e] eqn:Hr.
    + destruct IH as [[new Hnew] | (before & region & after & got & e & -> & Hb & He)].
      * left. exists (sess :: new). cbn. now rewrite Hr, Hnew.
      * right. exists (r :: before), region, after, (sess :: got), e.
        repeat split; [cbn; now rewrite Hr, Hb | exact He].
    + right. exists [], r, regions, [], e. repeat split. exact Hr.
Qed.

Lemma sessions_available_map (regions : list string) :
  sessions_available env regions <->
  exists new, map (session_NewSession env) regions = map Ok new.
Proof.
  split.
  - intros Hav.
    destruct (sessions_or_first_failure regions)
      as [H | (before & region & after & got & e & -> & _ & He)];
      [exact H |].
    destruct (Hav region) as [sess Hs]; [apply in_elt |]. congruence.
  - intros [new Hmap]. revert new Hmap.
    induction regions as [| r regions IH]; intros new Hmap region Hin;
      [destruct Hin |].
    destruct new as [| sess new]; [discriminate Hmap |].
    cbn [map] in Hmap. injection Hmap as Hhead Htail.
    destruct Hin as [<- | Hin]; [now exists sess | now apply (IH new)].
Qed.

Lemma newSessions_returned_inv (regions : list string) (sessions ss : list Session) :
  outcome (newSessions env regions sessions) = Returned ss ->
  exists new, ss = (sessions ++ new)%list /\
              map (session_NewSession env) regions = map Ok new /\
              trace (newSessions env regions sessions) = map EvNewSession regions.
Proof.
  intros H.
  destruct (sessions_or_first_failure regions)
    as [[new Hnew] | (before & region & after & got & e & -> & Hb & He)].
  - rewrite (newSessions_ok _ _ sessions Hnew) in H |- *.
    injection H as <-. exists new. repeat split. exact Hnew.
  - rewrite (newSessions_first_failure _ _ _ _ _ Hb He) in H. discriminate H.
Qed.

Lemma newSessions_panicked_inv (regions : list string) (sessions : list Session)
      (v : error) :
  outcome (newSessions env regions sessions) = Panicked v ->
  exists before region after got,
    regions = (before ++ region :: after)%list /\
    map (session_NewSession env) before = map Ok got /\
    session_NewSession env region = Err v /\
    trace (newSessions env regions sessions) = map EvNewSession (before ++ [region]).
Proof.
  intros H.
  destruct (sessions_or_first_failure regions)
    as [[new Hnew] | (before & region & after & got & e & -> & Hb & He)].
  - rewrite (newSessions_ok _ _ sessions Hnew) in H. discriminate H.
  - rewrite (newSessions_first_failure _ _ _ _ _ Hb He) in H |- *.
    injection H as <-. exists before, region, after, got. repeat split; assumption.
Qed.

(** The sessions asked for are of regions of the list. *)
Lemma newSessions_trace (regions : list string) (sessions : list Session) :
  Forall (fun e => exists region, In region regions /\ e = EvNewSession region)
         (trace (newSessions env regions sessions)).
Proof.
  apply Forall_forall. intros e He.
  destruct (sessions_or_first_failure regions)
    as [[new Hnew] | (before & region & after & got & err & -> & Hb & Herr)].
  - rewrite (newSessions_ok _ _ sessions Hnew) in He. cbn in He.
    apply in_map_iff in He as [r [<- Hr]]. now exists r.
  - rewrite (newSessions_first_failure _ _ _ _ _ Hb Herr) in He. cbn in He.
    apply in_map_iff in He as [r [<- Hr]]. exists r. split; [| reflexivity].
    apply in_app_iff in Hr as [Hr | [<- | []]];
      apply in_or_app; [now left | right; now left].
Qed.

End Sessions.

(** ** The blocks of [setupCollectors] *)

Section Blocks.

Variable env : Env.

Lemma setupBlock_eq {A : Type} (keyvals : list string) (enabled : bool)
      (sessions : M A) (exporter : A -> Collector) (collectors : list Collector) :
  setupBlock keyvals enabled sessions exporter collectors =
  if enabled then
    match sessions with
    | (t, Returned a) =>
        (EvLog LevelInfo keyvals
           :: (t ++ [EvNewExporter (exporter a); EvGoCollectLoop (exporter a)])%list,
         Returned (collectors ++ [exporter a])%list)
    | (t, Panicked v) => (EvLog LevelInfo keyvals :: t, Panicked v)
    | (t, Exited code) => (EvLog LevelInfo keyvals :: t, Exited code)
    | (t, Blocked) => (EvLog LevelInfo keyvals :: t, Blocked)
    end
  else ([EvLog LevelInfo keyvals], Returned collectors).
Proof.
  destruct enabled; [| reflexivity].
  destruct sessions as [t [a | v | code | ]]; reflexivity.
Qed.

Lemma setupVPC_block (config : Config) (collectors : list Collector) :
  setupVPC env config collectors =
  setupBlock
    ["msg"; "Will VPC metrics be gathered?"; "vpc-enabled";
     strconv_FormatBool (Enabled (VPC_Base (Config_VpcConfig config)))]
    (Enabled (VPC_Base (Config_VpcConfig config)))
    (newSessions env (VPC_Regions (Config_VpcConfig config)) [])
    (fun sessions => VPCExporter sessions (Config_VpcConfig config))
    collectors.
Proof. reflexivity. Qed.

Lemma setupRDS_block (config : Config) (collectors : list Collector) :
  setupRDS env config collectors =
  setupBlock
    ["msg"; "Will RDS metrics be gathered?"; "rds-enabled";
     strconv_FormatBool (Enabled (RDS_Base (Config_RdsConfig config)))]
    (Enabled (RDS_Base (Config_RdsConfig config)))
    (newSessions env (RDS_Regions (Config_RdsConfig config)) [])
    (fun sessions => RDSExporter sessions (Config_RdsConfig config))
    collectors.
Proof. reflexivity. Qed.

Lemma setupEC2_block (config : Config) (collectors : list Collector) :
  setupEC2 env config collectors =
  setupBlock
    ["msg"; "Will EC2 metrics be gathered?"; "ec2-enabled";
     strconv_FormatBool (Enabled (EC2_Base (Config_EC2Config config)))]
    (Enabled (EC2_Base (Config_EC2Config config)))
    (newSessions env (EC2_Regions (Config_EC2Config config)) [])
    (fun sessions => EC2Exporter sessions (Config_EC2Config config))
    collectors.
Proof. reflexivity. Qed.

Lemma setupRoute53_block (config : Config) (collectors : list Collector) :
  setupRoute53 env config collectors =
  setupBlock
    ["msg"; "Will Route53 metrics be gathered?"; "route53-enabled";
     strconv_FormatBool (Enabled (R53_Base (Config_Route53Config config)))]
    (Enabled (R53_Base (Config_Route53Config config)))
    (bind (NewSession env (R53_Region (Config_Route53Config config))) session_Must)
    (fun sess => Route53Exporter sess (Config_Route53Config config))
    collectors.
Proof.
  unfold setupRoute53, setupBlock.
  destruct (Enabled (R53_Base (Config_Route53Config config))); [| reflexivity].
  rewrite bind_assoc. reflexivity.
Qed.

(** The one session of route53. *)
Lemma route53_session (region : string) :
  bind (NewSession env region) session_Must =
  ([EvNewSession region],
   match session_NewSession env region with
   | Ok sess => Returned sess
   | Err e => Panicked e
   end).
Proof.
  unfold NewSession. cbn. destruct (session_NewSession env region); reflexivity.
Qed.

Lemma setupBlock_returned_inv {A : Type} (keyvals : list string) (enabled : bool)
      (sessions : M A) (exporter : A -> Collector)
      (collectors collectors' : list Collector) :
  Forall (fun e => starts_loop e = false) (trace sessions) ->
  outcome (setupBlock keyvals enabled sessions exporter collectors)
    = Returned collectors' ->
  exists new,
    collectors' = (collectors ++ new)%list /\
    filter starts_loop (trace (setupBlock keyvals enabled sessions exporter collectors))
      = map EvGoCollectLoop new /\
    ((enabled = false /\ new = []) \/
     (enabled = true /\
      exists a, outcome sessions = Returned a /\ new = [exporter a])).
Proof.
  intros Hquiet. rewrite setupBlock_eq.
  destruct enabled.
  - destruct sessions as [t o]. cbn [trace fst] in Hquiet.
    destruct o as [a | v | code | ]; cbn; try discriminate.
    intros [= <-]. exists [exporter a]. split; [reflexivity |]. split.
    + rewrite filter_app, (filter_none _ _ Hquiet). reflexivity.
    + right. split; [reflexivity |]. now exists a.
  - cbn. intros [= <-]. exists []. rewrite app_nil_r.
    repeat split. now left.
Qed.

Lemma setupBlock_panicked_inv {A : Type} (keyvals : list string) (enabled : bool)
      (sessions : M A) (exporter : A -> Collector)
      (collectors : list Collector) (v : error) :
  outcome (setupBlock keyvals enabled sessions exporter collectors) = Panicked v ->
  enabled = true /\ outcome sessions = Panicked v.
Proof.
  rewrite setupBlock_eq. destruct enabled; [| discriminate].
  destruct sessions as [t [a | v' | code | ]]; cbn; try discriminate.
  intros [= <-]. now split.
Qed.

Lemma setupBlock_returns {A : Type} (keyvals : list string) (enabled : bool)
      (sessions : M A) (exporter : A -> Collector) (collectors : list Collector) :
  (enabled = true -> returns sessions) ->
  returns (setupBlock keyvals enabled sessions exporter collectors).
Proof.
  intros H. rewrite setupBlock_eq. destruct enabled.
  - destruct (H eq_refl) as [a Ha].
    destruct sessions as [t o]. cbn in Ha. subst o. eexists. reflexivity.
  - eexists. reflexivity.
Qed.

Lemma setupBlock_loop_started {A : Type} (keyvals : list string)
      (sessions : M A) (exporter : A -> Collector)
      (collectors : list Collector) (a : A) :
  outcome sessions = Returned a ->
  In (EvGoCollectLoop (exporter a))
     (trace (setupBlock keyvals true sessions exporter collectors)).
Proof.
  intros Ha. rewrite setupBlock_eq.
  destruct sessions as [t o]. cbn in Ha. subst o. cbn.
  right. apply in_or_app. right. right. now left.
Qed.

Lemma setupBlock_trace {A : Type} (T : Event -> Prop) (keyvals : list string)
      (enabled : bool) (sessions : M A) (exporter : A -> Collector)
      (collectors : list Collector) :
  T (EvLog LevelInfo keyvals) ->
  (enabled = true ->
   sat sessions T
       (fun a => T (EvNewExporter (exporter a)) /\
                 T (EvGoCollectLoop (exporter a)))) ->
  Forall T (trace (setupBlock keyvals enabled sessions exporter collectors)).
Proof.
  intros Hlog Hs. rewrite setupBlock_eq. destruct enabled.
  - destruct (Hs eq_refl) as [Ht Hq].
    destruct sessions as [t [a | v | code | ]]; cbn in *;
      constructor; try assumption.
    apply Forall_app. split; [exact Ht |].
    destruct (Hq a eq_refl) as [H1 H2]. repeat constructor; assumption.
  - repeat constructor. exact Hlog.
Qed.

End Blocks.

(** ** What [setupCollectors] returns *)

Section Returned.

Variable env : Env.

Lemma newSessions_quiet (regions : list string) (sessions : list Session) :
  Forall (fun e => starts_loop e = false) (trace (newSessions env regions sessions)).
Proof.
  eapply Forall_impl; [| apply newSessions_trace].
  intros e [region [_ ->]]. reflexivity.
Qed.

Lemma setupVPC_returned_inv (config : Config) (collectors collectors' : list Collector) :
  outcome (setupVPC env config collectors) = Returned collectors' ->
  exists new,
    collectors' = (collectors ++ new)%list /\
    filter starts_loop (trace (setupVPC env config collectors))
      = map EvGoCollectLoop new /\
    appended env config vpc new.
Proof.
  rewrite setupVPC_block. intros H.
  apply setupBlock_returned_inv in H as (new & -> & Hf & Hcase);
    [| apply newSessions_quiet].
  exists new. split; [reflexivity |]. split; [exact Hf |].
  destruct Hcase as [[Hen ->] | [Hen (ss & Hss & ->)]].
  - left. now split.
  - right. split; [exact Hen |]. eexists. split; [reflexivity |].
    split; [reflexivity |]. split; [reflexivity |].
    apply newSessions_returned_inv in Hss as (new & -> & Hmap & _). exact Hmap.
Qed.

Lemma setupRDS_returned_inv (config : Config) (collectors collectors' : list Collector) :
  outcome (setupRDS env config collectors) = Returned collectors' ->
  exists new,
    collectors' = (collectors ++ new)%list /\
    filter starts_loop (trace (setupRDS env config collectors))
      = map EvGoCollectLoop new /\
    appended env config rds new.
Proof.
  rewrite setupRDS_block. intros H.
  apply setupBlock_returned_inv in H as (new & -> & Hf & Hcase);
    [| apply newSessions_quiet].
  exists new. split; [reflexivity |]. split; [exact Hf |].
  destruct Hcase as [[Hen ->] | [Hen (ss & Hss & ->)]].
  - left. now split.
  - right. split; [exact Hen |]. eexists. split; [reflexivity |].
    split; [reflexivity |]. split; [reflexivity |].
    apply newSessions_returned_inv in Hss as (new & -> & Hmap & _). exact Hmap.
Qed.

Lemma setupEC2_returned_inv (config : Config) (collectors collectors' : list Collector) :
  outcome (setupEC2 env config collectors) = Returned collectors' ->
  exists new,
    collectors' = (collectors ++ new)%list /\
    filter starts_loop (trace (setupEC2 env config collectors))
      = map EvGoCollectLoop new /\
    appended env config ec2 new.
Proof.
  rewrite setupEC2_block. intros H.
  apply setupBlock_returned_inv in H as (new & -> & Hf & Hcase);
    [| apply newSessions_quiet].
  exists new. split; [reflexivity |]. split; [exact Hf |].
  destruct Hcase as [[Hen ->] | [Hen (ss & Hss & ->)]].
  - left. now split.
  - right. split; [exact Hen |]. eexists. split; [reflexivity |].
    split; [reflexivity |]. split; [reflexivity |].
    apply newSessions_returned_inv in Hss as (new & -> & Hmap & _). exact Hmap.
Qed.

Lemma setupRoute53_returned_inv (config : Config)
      (collectors collectors' : list Collector) :
  outcome (setupRoute53 env config collectors) = Returned collectors' ->
  exists new,
    collectors' = (collectors ++ new)%list /\
    filter starts_loop (trace (setupRoute53 env config collectors))
      = map EvGoCollectLoop new /\
    appended env config route53 new.
Proof.
  rewrite setupRoute53_block. intros H.
  apply setupBlock_returned_inv in H as (new & -> & Hf & Hcase);
    [| rewrite route53_session; repeat constructor].
  exists new. split; [reflexivity |]. split; [exact Hf |].
  destruct Hcase as [[Hen ->] | [Hen (sess & Hsess & ->)]].
  - left. now split.
  - right. split; [exact Hen |]. eexists. split; [reflexivity |].
    split; [reflexivity |]. split; [reflexivity |].
    rewrite route53_session in Hsess. cbn in Hsess.
    destruct (session_NewSession env (R53_Region (Config_Route53Config config)));
      [now injection Hsess as -> | discriminate Hsess].
Qed.

Ltac invert_bind H a Ha Ht :=
  apply bind_returned_inv in H as (a & Ha & H & Ht);
  cbv beta iota in H, Ht.

(** What [setupCollectors] returns with the configuration [config] loaded:
    what the four blocks append, in the order of the source; and the
    refresh loops it has started are those of the collectors it returns, in
    their order. *)
Lemma setupCollectors_returned_inv
      (configFile : string) (config : Config) (cs : list Collector) :
  outcome (loadExporterConfiguration env configFile) = Returned (Ok config) ->
  outcome (setupCollectors env configFile) = Returned (Ok cs) ->
  exists n1 n2 n3 n4,
    cs = (n1 ++ n2 ++ n3 ++ n4)%list /\
    appended env config vpc n1 /\
    appended env config rds n2 /\
    appended env config ec2 n3 /\
    appended env config route53 n4 /\
    filter starts_loop (trace (setupCollectors env configFile))
      = map EvGoCollectLoop cs.
Proof.
  intros Hload H. unfold setupCollectors in H |- *.
  invert_bind H r Hr Ht. rewrite Hload in Hr. injection Hr as <-.
  cbv beta iota in H, Ht.
  invert_bind H u1 Hu1 Ht1. invert_bind H u2 Hu2 Ht2.
  invert_bind H u3 Hu3 Ht3. invert_bind H u4 Hu4 Ht4.
  invert_bind H cs1 H1 Ht5. invert_bind H cs2 H2 Ht6.
  invert_bind H cs3 H3 Ht7. invert_bind H cs4 H4 Ht8.
  cbn in H. injection H as <-.
  apply setupVPC_returned_inv in H1 as (n1 & -> & Hf1 & Ha1).
  apply setupRDS_returned_inv in H2 as (n2 & -> & Hf2 & Ha2).
  apply setupEC2_returned_inv in H3 as (n3 & -> & Hf3 & Ha3).
  apply setupRoute53_returned_inv in H4 as (n4 & -> & Hf4 & Ha4).
  exists n1, n2, n3, n4.
  split; [cbn [app]; now rewrite <- !app_assoc |].
  repeat (split; [assumption |]).
  rewrite Ht, Ht1, Ht2, Ht3, Ht4, Ht5, Ht6, Ht7, Ht8.
  rewrite !filter_app, Hf1, Hf2, Hf3, Hf4.
  rewrite (filter_none starts_loop (trace (loadExporterConfiguration env configFile)))
    by (apply load_trace; reflexivity).
  cbn [app level_Log emit trace fst filter starts_loop ret map].
  rewrite !app_nil_r, !map_app. cbn [app map]. now rewrite <- !app_assoc.
Qed.

End Returned.

Lemma appended_kinds (env : Env) (config : Config) (k : Kind) (new : list Collector) :
  appended env config k new ->
  map kindOf new = if Enabled (baseOf k config) then [Some k] else [].
Proof.
  intros [[Hen ->] | [Hen (c & -> & Hk & _)]]; rewrite Hen; cbn;
    [reflexivity | now rewrite Hk].
Qed.

Lemma appended_built_from (env : Env) (config : Config) (k : Kind)
      (new : list Collector) :
  appended env config k new -> Forall (built_from env config) new.
Proof.
  intros [[_ ->] | [_ (c & -> & _ & Hb)]]; repeat constructor. exact Hb.
Qed.

Lemma built_from_sessions (env : Env) (config : Config) (k : Kind) (c : Collector) :
  kindOf c = Some k -> built_from env config c ->
  sessions_available env (regionsOf k config).
Proof.
  destruct c as [ss cfg | ss cfg | ss cfg | sess cfg | ]; cbn;
    intros [= <-]; try (intros [-> Hmap]; apply sessions_available_map;
                        now exists ss).
  intros [-> Hs] region [<- | []]. now exists sess.
Qed.

(** X1: with the configuration [config] loaded, the collectors
    [setupCollectors] returns are of the enabled kinds exactly, one each, in
    the order vpc, rds, ec2, route53 of the source. *)
Theorem setupCollectors_kinds_in_order
    (env : Env) (configFile : string) (config : Config) (cs : list Collector) :
  outcome (loadExporterConfiguration env configFile) = Returned (Ok config) ->
  outcome (setupCollectors env configFile) = Returned (Ok cs) ->
  map kindOf cs =
  map Some (filter (fun k => Enabled (baseOf k config)) kinds_in_order).
Proof.
  intros Hload H.
  destruct (setupCollectors_returned_inv env _ _ _ Hload H)
    as (n1 & n2 & n3 & n4 & -> & H1 & H2 & H3 & H4 & _).
  rewrite !map_app.
  rewrite (appended_kinds _ _ _ _ H1), (appended_kinds _ _ _ _ H2),
          (appended_kinds _ _ _ _ H3), (appended_kinds _ _ _ _ H4).
  unfold kinds_in_order. cbn [filter].
  destruct (Enabled (baseOf vpc config)), (Enabled (baseOf rds config)),
           (Enabled (baseOf ec2 config)), (Enabled (baseOf route53 config));
    reflexivity.
Qed.

Lemma setupCollectors_kinds_in_order_witness :
  outcome (loadExporterConfiguration Scenario.sample_env CONFIG_FILE_PATH)
    = Returned (Ok (defaulting Scenario.sample_parsed)) /\
  (exists cs,
     outcome (setupCollectors Scenario.sample_env CONFIG_FILE_PATH)
       = Returned (Ok cs) /\
     map kindOf cs = [Some rds; Some ec2]).
Proof.
  split; [reflexivity |].
  eexists. split; [reflexivity |].
  apply (setupCollectors_kinds_in_order
           Scenario.sample_env CONFIG_FILE_PATH
           (defaulting Scenario.sample_parsed));
    reflexivity.
Defined.

(** X2: when [setupCollectors] returns collectors, the refresh loops it has
    started are the [CollectLoop]s of exactly those collectors, one each, in
    the order of the returned list. *)
Theorem setupCollectors_loops_of_returned
    (env : Env) (configFile : string) (cs : list Collector) :
  outcome (setupCollectors env configFile) = Returned (Ok cs) ->
  filter starts_loop (trace (setupCollectors env configFile))
  = map EvGoCollectLoop cs.
Proof.
  intros H.
  destruct (ioutil_ReadFile env configFile) as [file | e] eqn:Hread.
  - assert (Hload := load_read_ok env configFile file Hread).
    apply (f_equal outcome) in Hload. cbn [outcome snd] in Hload.
    destruct (setupCollectors_returned_inv env _ _ _ Hload H)
      as (n1 & n2 & n3 & n4 & _ & _ & _ & _ & _ & Hf).
    exact Hf.
  - rewrite (setupCollectors_read_err _ _ _ Hread) in H. discriminate H.
Qed.

Lemma setupCollectors_loops_of_returned_witness :
  outcome (setupCollectors Scenario2.all_enabled_env CONFIG_FILE_PATH)
    = Returned (Ok Scenario2.all_enabled_collectors) /\
  filter starts_loop (trace (setupCollectors Scenario2.all_enabled_env CONFIG_FILE_PATH))
    = map EvGoCollectLoop Scenario2.all_enabled_collectors.
Proof.
  split; [reflexivity |].
  apply (setupCollectors_loops_of_returned
           Scenario2.all_enabled_env CONFIG_FILE_PATH
           Scenario2.all_enabled_collectors).
  reflexivity.
Defined.

(** X3: every collector [setupCollectors] returns holds the configuration
    of its kind as loaded (defaults applied) and one session per configured
    region of the kind, in the order of the configuration; route53 holds
    the session of its single region. *)
Theorem setupCollectors_built_from
    (env : Env) (configFile : string) (config : Config) (cs : list Collector) :
  outcome (loadExporterConfiguration env configFile) = Returned (Ok config) ->
  outcome (setupCollectors env configFile) = Returned (Ok cs) ->
  Forall (built_from env config) cs.
Proof.
  intros Hload H.
  destruct (setupCollectors_returned_inv env _ _ _ Hload H)
    as (n1 & n2 & n3 & n4 & -> & H1 & H2 & H3 & H4 & _).
  repeat (apply Forall_app; split);
    eapply appended_built_from; eassumption.
Qed.

Lemma setupCollectors_built_from_witness :
  outcome (loadExporterConfiguration Scenario2.all_enabled_env CONFIG_FILE_PATH)
    = Returned (Ok Scenario2.all_enabled_config) /\
  outcome (setupCollectors Scenario2.all_enabled_env CONFIG_FILE_PATH)
    = Returned (Ok Scenario2.all_enabled_collectors) /\
  Forall (built_from Scenario2.all_enabled_env Scenario2.all_enabled_config)
         Scenario2.all_enabled_collectors.
Proof.
  split; [reflexivity |]. split; [reflexivity |].
  apply (setupCollectors_built_from
           Scenario2.all_enabled_env CONFIG_FILE_PATH);
    reflexivity.
Defined.

(** ** When [setupCollectors] returns and when it panics *)

Section Completion.

Variable env : Env.

Lemma returns_Log (lvl : Level) (keyvals : list string) :
  returns (level_Log lvl keyvals).
Proof. exists tt. reflexivity. Qed.

Lemma returns_newSessions (regions : list string) :
  sessions_available env regions ->
  exists new, map (session_NewSession env) regions = map Ok new /\
              outcome (newSessions env regions []) = Returned new.
Proof.
  intros Hav. apply sessions_available_map in Hav as [new Hnew].
  exists new. split; [exact Hnew |].
  now rewrite (newSessions_ok env _ new [] Hnew).
Qed.

Lemma returns_setupVPC (config : Config) (collectors : list Collector) :
  (Enabled (baseOf vpc config) = true ->
   sessions_available env (regionsOf vpc config)) ->
  returns (setupVPC env config collectors).
Proof.
  intros H. rewrite setupVPC_block. apply setupBlock_returns. intros Hen.
  destruct (returns_newSessions _ (H Hen)) as (new & _ & Hr). now exists new.
Qed.

Lemma returns_setupRDS (config : Config) (collectors : list Collector) :
  (Enabled (baseOf rds config) = true ->
   sessions_available env (regionsOf rds config)) ->
  returns (setupRDS env config collectors).
Proof.
  intros H. rewrite setupRDS_block. apply setupBlock_returns. intros Hen.
  destruct (returns_newSessions _ (H Hen)) as (new & _ & Hr). now exists new.
Qed.

Lemma returns_setupEC2 (config : Config) (collectors : list Collector) :
  (Enabled (baseOf ec2 config) = true ->
   sessions_available env (regionsOf ec2 config)) ->
  returns (setupEC2 env config collectors).
Proof.
  intros H. rewrite setupEC2_block. apply setupBlock_returns. intros Hen.
  destruct (returns_newSessions _ (H Hen)) as (new & _ & Hr). now exists new.
Qed.

Lemma returns_setupRoute53 (config : Config) (collectors : list Collector) :
  (Enabled (baseOf route53 config) = true ->
   sessions_available env (regionsOf route53 config)) ->
  returns (setupRoute53 env config collectors).
Proof.
  intros H. rewrite setupRoute53_block. apply setupBlock_returns. intros Hen.
  destruct (H Hen (R53_Region (Config_Route53Config config))) as [sess Hs];
    [now left |].
  exists sess. rewrite route53_session, Hs. reflexivity.
Qed.

Lemma completes_setupRoute53 (config : Config) (collectors : list Collector) :
  completes (setupRoute53 env config collectors).
Proof.
  rewrite setupRoute53_block, setupBlock_eq, route53_session.
  destruct (Enabled (R53_Base (Config_Route53Config config)));
    [| left; eexists; reflexivity].
  destruct (session_NewSession env (R53_Region (Config_Route53Config config)));
    [left | right]; eexists; reflexivity.
Qed.

(** [setupCollectors] returns or panics: it never ends the process itself
    and never blocks. *)
Lemma completes_setupCollectors (configFile : string) :
  completes (setupCollectors env configFile).
Proof.
  destruct (ioutil_ReadFile env configFile) as [file | e] eqn:Hread.
  - unfold setupCollectors. rewrite (load_read_ok _ _ _ Hread).
    apply completes_bind; [left; eexists; reflexivity |].
    intros r Hr. cbn in Hr. injection Hr as <-.
    do 4 (apply completes_bind; [apply completes_Log |]; intros _ _).
    apply completes_bind; [apply completes_setupVPC |]. intros cs1 _.
    apply completes_bind; [apply completes_setupRDS |]. intros cs2 _.
    apply completes_bind; [apply completes_setupEC2 |]. intros cs3 _.
    apply completes_bind; [apply completes_setupRoute53 |]. intros cs4 _.
    apply completes_ret.
  - rewrite (setupCollectors_read_err _ _ _ Hread). left. eexists. reflexivity.
Qed.

Lemma setupCollectors_returns (configFile : string) (config : Config) :
  outcome (loadExporterConfiguration env configFile) = Returned (Ok config) ->
  (forall k, Enabled (baseOf k config) = true ->
             sessions_available env (regionsOf k config)) ->
  exists cs, outcome (setupCollectors env configFile) = Returned (Ok cs).
Proof.
  intros Hload Hav.
  assert (Hret : returns (setupCollectors env configFile)).
  { unfold setupCollectors.
    apply returns_bind; [eexists; exact Hload |].
    intros r Hr. rewrite Hload in Hr. injection Hr as <-.
    do 4 (apply returns_bind; [apply returns_Log |]; intros _ _).
    apply returns_bind; [apply returns_setupVPC, Hav |]. intros cs1 _.
    apply returns_bind; [apply returns_setupRDS, Hav |]. intros cs2 _.
    apply returns_bind; [apply returns_setupEC2, Hav |]. intros cs3 _.
    apply returns_bind; [apply returns_setupRoute53, Hav |]. intros cs4 _.
    eexists. reflexivity. }
  destruct Hret as [[cs | err] Hr]; [now exists cs |].
  destruct (setupCollectors_events env configFile config Hload) as [_ Hq].
  destruct (Hq _ Hr).
Qed.

End Completion.

(** X4: with the configuration [config] loaded, [setupCollectors] returns
    collectors exactly when every configured region of every enabled kind
    has a session, and panics exactly when one of them has none. *)
Theorem setupCollectors_returns_iff
    (env : Env) (configFile : string) (config : Config) :
  outcome (loadExporterConfiguration env configFile) = Returned (Ok config) ->
  ((exists cs, outcome (setupCollectors env configFile) = Returned (Ok cs)) <->
   (forall k, Enabled (baseOf k config) = true ->
              sessions_available env (regionsOf k config))) /\
  (panics (setupCollectors env configFile) <->
   ~ (forall k, Enabled (baseOf k config) = true ->
                sessions_available env (regionsOf k config))).
Proof.
  intros Hload.
  assert (Hfwd : (exists cs, outcome (setupCollectors env configFile)
                             = Returned (Ok cs)) ->
                 forall k, Enabled (baseOf k config) = true ->
                           sessions_available env (regionsOf k config)).
  { intros [cs H] k Hen.
    destruct (setupCollectors_returned_inv env _ _ _ Hload H)
      as (n1 & n2 & n3 & n4 & _ & H1 & H2 & H3 & H4 & _).
    assert (Hk : exists n, appended env config k n)
      by (destruct k; eauto).
    destruct Hk as [n [[Hoff _] | [_ (c & _ & Hkind & Hb)]]]; [congruence |].
    now apply (built_from_sessions env config k c). }
  split; [split; [exact Hfwd | apply setupCollectors_returns, Hload] |].
  split.
  - intros [v Hv] Hav.
    destruct (setupCollectors_returns env _ _ Hload Hav) as [cs Hcs].
    congruence.
  - intros Hnot.
    destruct (completes_setupCollectors env configFile) as [[r Hr] | Hp];
      [| exact Hp].
    destruct Hnot. apply Hfwd.
    destruct r as [cs | err]; [now exists cs |].
    destruct (setupCollectors_events env configFile config Hload) as [_ Hq].
    destruct (Hq _ Hr).
Qed.

Lemma setupCollectors_returns_iff_witness :
  outcome (loadExporterConfiguration Scenario2.one_region_down_env CONFIG_FILE_PATH)
    = Returned (Ok Scenario2.all_enabled_config) /\
  panics (setupCollectors Scenario2.one_region_down_env CONFIG_FILE_PATH) /\
  ~ (forall k, Enabled (baseOf k Scenario2.all_enabled_config) = true ->
               sessions_available Scenario2.one_region_down_env
                 (regionsOf k Scenario2.all_enabled_config)).
Proof.
  split; [reflexivity |].
  destruct (setupCollectors_returns_iff
              Scenario2.one_region_down_env CONFIG_FILE_PATH
              Scenario2.all_enabled_config eq_refl) as [_ [Hp _]].
  assert (H : panics (setupCollectors Scenario2.one_region_down_env
                        CONFIG_FILE_PATH))
    by (eexists; reflexivity).
  split; [exact H | exact (Hp H)].
Defined.

(** ** What [setupCollectors] touches *)

Lemma sat_of_trace {A : Type} (m : M A) (T : Event -> Prop) :
  Forall T (trace m) -> sat m T (fun _ => True).
Proof. intros H. split; [exact H | trivial]. Qed.

Lemma newSessions_strict (env : Env) (configFile : string) (config : Config)
      (k : Kind) (exporter : list Session -> Collector) :
  Enabled (baseOf k config) = true ->
  (forall sessions, kindOf (exporter sessions) = Some k) ->
  sat (newSessions env (regionsOf k config) [])
      (setup_event_strict configFile config)
      (fun a => setup_event_strict configFile config (EvNewExporter (exporter a)) /\
                setup_event_strict configFile config (EvGoCollectLoop (exporter a))).
Proof.
  intros Hen Hkind. split.
  - eapply Forall_impl; [| apply newSessions_trace].
    intros e [region [Hin ->]]. now exists k.
  - intros a _. split; exists k; auto.
Qed.

(** X5: with the configuration [config] loaded from [configFile],
    [setupCollectors] reads no file but [configFile], asks for a session only
    for a region configured for an enabled kind, builds and starts only
    collectors of enabled kinds, and does nothing else than log; this holds
    also when it panics. *)
Theorem setupCollectors_strict_events
    (env : Env) (configFile : string) (config : Config) :
  outcome (loadExporterConfiguration env configFile) = Returned (Ok config) ->
  Forall (setup_event_strict configFile config)
         (trace (setupCollectors env configFile)).
Proof.
  intros Hload.
  assert (Htl : Forall (setup_event_strict configFile config)
                       (trace (loadExporterConfiguration env configFile))).
  { destruct (ioutil_ReadFile env configFile) as [file | e] eqn:Hread.
    - rewrite (load_read_ok _ _ _ Hread). repeat constructor.
    - rewrite (load_read_err _ _ _ Hread) in Hload. discriminate Hload. }
  enough (Hsat : sat (setupCollectors env configFile)
                     (setup_event_strict configFile config) (fun _ => True))
    by apply Hsat.
  unfold setupCollectors.
  eapply sat_bind; [apply sat_of_outcome; [exact Htl | exact Hload] |].
  cbn beta. intros r Hr. subst r.
  do 4 (eapply sat_bind; [apply sat_Log; exact I |]; intros _ _).
  eapply sat_bind.
  { apply sat_of_trace. rewrite setupVPC_block.
    apply setupBlock_trace; [exact I |]. intros Hen.
    now apply (newSessions_strict env configFile config vpc). }
  intros cs1 _. eapply sat_bind.
  { apply sat_of_trace. rewrite setupRDS_block.
    apply setupBlock_trace; [exact I |]. intros Hen.
    now apply (newSessions_strict env configFile config rds). }
  intros cs2 _. eapply sat_bind.
  { apply sat_of_trace. rewrite setupEC2_block.
    apply setupBlock_trace; [exact I |]. intros Hen.
    now apply (newSessions_strict env configFile config ec2). }
  intros cs3 _. eapply sat_bind.
  { apply sat_of_trace. rewrite setupRoute53_block.
    apply setupBlock_trace; [exact I |]. intros Hen.
    rewrite route53_session. split.
    - repeat constructor. exists route53. split; [exact Hen | now left].
    - intros a _. split; exists route53; auto. }
  intros cs4 _. apply sat_ret. exact I.
Qed.

Lemma setupCollectors_strict_events_witness :
  outcome (loadExporterConfiguration Scenario.sample_env CONFIG_FILE_PATH)
    = Returned (Ok (defaulting Scenario.sample_parsed)) /\
  Forall (setup_event_strict CONFIG_FILE_PATH (defaulting Scenario.sample_parsed))
         (trace (setupCollectors Scenario.sample_env CONFIG_FILE_PATH)).
Proof.
  split; [reflexivity |].
  apply (setupCollectors_strict_events Scenario.sample_env CONFIG_FILE_PATH).
  reflexivity.
Defined.

(** X6: when [setupCollectors] panics, the configuration was loaded, and the
    value of the panic is the error of [session.NewSession] for a region of
    an enabled kind: the first region of that kind, in the configured order,
    that has no session. *)
Theorem setupCollectors_panic_cause
    (env : Env) (configFile : string) (v : error) :
  outcome (setupCollectors env configFile) = Panicked v ->
  exists config k before region after,
    outcome (loadExporterConfiguration env configFile) = Returned (Ok config) /\
    Enabled (baseOf k config) = true /\
    regionsOf k config = (before ++ region :: after)%list /\
    sessions_available env before /\
    session_NewSession env region = Err v.
Proof.
  intros H.
  destruct (ioutil_ReadFile env configFile) as [file | e] eqn:Hread;
    [| rewrite (setupCollectors_read_err _ _ _ Hread) in H; discriminate H].
  assert (Hload := load_read_ok env configFile file Hread).
  set (config := defaulting (fst (yaml_Unmarshal env file zeroConfig))) in *.
  exists config.
  unfold setupCollectors in H. rewrite Hload in H.
  apply bind_panicked_inv in H as [H | (r & Hr & H)]; [discriminate H |].
  cbn in Hr. injection Hr as <-. cbv beta iota in H.
  do 4 (apply bind_panicked_inv in H as [H | ([] & _ & H)]; [discriminate H |]).
  assert (Hsess : forall k sessions,
             Enabled (baseOf k config) = true ->
             outcome (newSessions env (regionsOf k config) sessions) = Panicked v ->
             exists before region after,
               outcome (loadExporterConfiguration env configFile)
                 = Returned (Ok config) /\
               Enabled (baseOf k config) = true /\
               regionsOf k config = (before ++ region :: after)%list /\
               sessions_available env before /\
               session_NewSession env region = Err v).
  { intros k sessions Hen Hp.
    apply newSessions_panicked_inv in Hp
      as (before & region & after & got & Hsplit & Hgot & Hfail & _).
    exists before, region, after. rewrite Hload.
    repeat split; try assumption.
    apply sessions_available_map. now exists got. }
  apply bind_panicked_inv in H as [H | (cs1 & _ & H)].
  { rewrite setupVPC_block in H.
    apply setupBlock_panicked_inv in H as [Hen Hp].
    exists vpc. now apply (Hsess vpc []). }
  apply bind_panicked_inv in H as [H | (cs2 & _ & H)].
  { rewrite setupRDS_block in H.
    apply setupBlock_panicked_inv in H as [Hen Hp].
    exists rds. now apply (Hsess rds []). }
  apply bind_panicked_inv in H as [H | (cs3 & _ & H)].
  { rewrite setupEC2_block in H.
    apply setupBlock_panicked_inv in H as [Hen Hp].
    exists ec2. now apply (Hsess ec2 []). }
  apply bind_panicked_inv in H as [H | (cs4 & _ & H)]; [| discriminate H].
  rewrite setupRoute53_block in H.
  apply setupBlock_panicked_inv in H as [Hen Hp].
  rewrite route53_session in Hp. cbn in Hp.
  exists route53, [], (R53_Region (Config_Route53Config config)), [].
  rewrite Hload. repeat split; try assumption.
  - intros region [].
  - destruct (session_NewSession env (R53_Region (Config_Route53Config config)));
      [discriminate Hp | now injection Hp as ->].
Qed.

Lemma setupCollectors_panic_cause_witness :
  outcome (setupCollectors Scenario2.one_region_down_env CONFIG_FILE_PATH)
    = Panicked "no session for eu-west-1" /\
  exists config k before region after,
    outcome (loadExporterConfiguration Scenario2.one_region_down_env
               CONFIG_FILE_PATH) = Returned (Ok config) /\
    Enabled (baseOf k config) = true /\
    regionsOf k config = (before ++ region :: after)%list /\
    sessions_available Scenario2.one_region_down_env before /\
    session_NewSession Scenario2.one_region_down_env region
      = Err "no session for eu-west-1".
Proof.
  split; [reflexivity |].
  apply (setupCollectors_panic_cause
           Scenario2.one_region_down_env CONFIG_FILE_PATH).
  reflexivity.
Defined.

(** X7: [setupCollectors] returns an error exactly when the configuration
    file cannot be read; it has then only read and logged: no session is
    asked for, no collector built, no loop started. *)
Theorem setupCollectors_error_iff (env : Env) (configFile : string) :
  (returns_error (setupCollectors env configFile) <->
   cannot_be_read env configFile) /\
  (returns_error (setupCollectors env configFile) ->
   Forall (fun e => match e with
                    | EvReadFile _ | EvLog _ _ => True
                    | _ => False
                    end)
          (trace (setupCollectors env configFile))).
Proof.
  unfold cannot_be_read.
  destruct (ioutil_ReadFile env configFile) as [file | e] eqn:Hread.
  - assert (Hload := load_read_ok env configFile file Hread).
    apply (f_equal outcome) in Hload. cbn [outcome snd] in Hload.
    destruct (setupCollectors_events env configFile _ Hload) as [_ Hq].
    assert (Hno : ~ returns_error (setupCollectors env configFile))
      by (intros [err Herr]; exact (Hq _ Herr)).
    split; [split |].
    + intros H. now destruct Hno.
    + intros [e He]. discriminate He.
    + intros H. now destruct Hno.
  - rewrite (setupCollectors_read_err _ _ _ Hread).
    split; [split |].
    + intros _. now exists e.
    + intros _. eexists. reflexivity.
    + intros _. repeat constructor.
Qed.

(** X8: a kind's refresh loop is started as soon as the kind's block is
    done, whatever happens in the blocks after it: when kind [k] is enabled
    and the enabled kinds up to [k], in the order vpc, rds, ec2, route53,
    have sessions for all their regions, the loop of a collector of kind [k]
    is started, also in a run where a later kind makes [setupCollectors]
    panic. *)
Theorem setupCollectors_loop_started
    (env : Env) (configFile : string) (config : Config) (k : Kind) :
  outcome (loadExporterConfiguration env configFile) = Returned (Ok config) ->
  Enabled (baseOf k config) = true ->
  (forall k', In k' (kinds_up_to k) -> Enabled (baseOf k' config) = true ->
              sessions_available env (regionsOf k' config)) ->
  exists c,
    kindOf c = Some k /\ built_from env config c /\
    In (EvGoCollectLoop c) (trace (setupCollectors env configFile)).
Proof.
  intros Hload Hen Hav.
  assert (Hvpc : returns (setupVPC env config []) \/ k = vpc).
  { destruct k; auto; left; apply returns_setupVPC; intros H;
      apply Hav; cbn; tauto. }
  assert (Hrds : forall cs, returns (setupRDS env config cs) \/ k = vpc \/ k = rds).
  { intros cs. destruct k; auto; left; apply returns_setupRDS; intros H;
      apply Hav; cbn; tauto. }
  assert (Hec2 : forall cs, returns (setupEC2 env config cs) \/ k <> route53).
  { intros cs. destruct k; try (right; discriminate).
    left. apply returns_setupEC2. intros H. apply Hav; cbn; tauto. }
  assert (Hk : sessions_available env (regionsOf k config))
    by (apply Hav; [destruct k; cbn; tauto | exact Hen]).
  assert (Hstart :
            forall c,
              In (EvGoCollectLoop c)
                 (trace (bind (setupVPC env config []) (fun cs1 =>
                         bind (setupRDS env config cs1) (fun cs2 =>
                         bind (setupEC2 env config cs2) (fun cs3 =>
                         bind (setupRoute53 env config cs3) (fun cs4 =>
                         ret (Ok cs4))))))) ->
              In (EvGoCollectLoop c) (trace (setupCollectors env configFile))).
  { intros c Hc. unfold setupCollectors.
    eapply In_trace_bind_r; [exact Hload |]. cbv beta iota.
    do 4 (eapply In_trace_bind_r; [reflexivity |]). exact Hc. }
  destruct k; cbn [baseOf regionsOf] in Hen, Hk.
  - (* rds *)
    destruct (returns_newSessions env _ Hk) as (new & Hmap & Hr).
    exists (RDSExporter new (Config_RdsConfig config)).
    split; [reflexivity |]. split; [split; [reflexivity | exact Hmap] |].
    apply Hstart.
    destruct Hvpc as [[cs1 H1] | Hneq]; [| discriminate Hneq].
    eapply In_trace_bind_r; [exact H1 |]. apply In_trace_bind_l.
    rewrite setupRDS_block, Hen.
    now apply (setupBlock_loop_started _ _
                 (fun ss => RDSExporter ss (Config_RdsConfig config))).
  - (* vpc *)
    destruct (returns_newSessions env _ Hk) as (new & Hmap & Hr).
    exists (VPCExporter new (Config_VpcConfig config)).
    split; [reflexivity |]. split; [split; [reflexivity | exact Hmap] |].
    apply Hstart. apply In_trace_bind_l.
    rewrite setupVPC_block, Hen.
    now apply (setupBlock_loop_started _ _
                 (fun ss => VPCExporter ss (Config_VpcConfig config))).
  - (* route53 *)
    destruct (Hk (R53_Region (Config_Route53Config config))) as [sess Hs];
      [now left |].
    exists (Route53Exporter sess (Config_Route53Config config)).
    split; [reflexivity |]. split; [split; [reflexivity | exact Hs] |].
    apply Hstart.
    destruct Hvpc as [[cs1 H1] | Hneq]; [| discriminate Hneq].
    eapply In_trace_bind_r; [exact H1 |].
    destruct (Hrds cs1) as [[cs2 H2] | [Hneq | Hneq]]; try discriminate Hneq.
    eapply In_trace_bind_r; [exact H2 |].
    destruct (Hec2 cs2) as [[cs3 H3] | Hneq]; [| now destruct Hneq].
    eapply In_trace_bind_r; [exact H3 |]. apply In_trace_bind_l.
    rewrite setupRoute53_block, Hen.
    apply (setupBlock_loop_started _ _
             (fun s => Route53Exporter s (Config_Route53Config config))).
    rewrite route53_session, Hs. reflexivity.
  - (* ec2 *)
    destruct (returns_newSessions env _ Hk) as (new & Hmap & Hr).
    exists (EC2Exporter new (Config_EC2Config config)).
    split; [reflexivity |]. split; [split; [reflexivity | exact Hmap] |].
    apply Hstart.
    destruct Hvpc as [[cs1 H1] | Hneq]; [| discriminate Hneq].
    eapply In_trace_bind_r; [exact H1 |].
    destruct (Hrds cs1) as [[cs2 H2] | [Hneq | Hneq]]; try discriminate Hneq.
    eapply In_trace_bind_r; [exact H2 |]. apply In_trace_bind_l.
    rewrite setupEC2_block, Hen.
    now apply (setupBlock_loop_started _ _
                 (fun ss => EC2Exporter ss (Config_EC2Config config))).
Qed.

Lemma setupCollectors_loop_started_witness :
  outcome (loadExporterConfiguration Scenario2.one_region_down_env CONFIG_FILE_PATH)
    = Returned (Ok Scenario2.all_enabled_config) /\
  Enabled (baseOf vpc Scenario2.all_enabled_config) = true /\
  panics (setupCollectors Scenario2.one_region_down_env CONFIG_FILE_PATH) /\
  exists c,
    kindOf c = Some vpc /\
    built_from Scenario2.one_region_down_env Scenario2.all_enabled_config c /\
    In (EvGoCollectLoop c)
       (trace (setupCollectors Scenario2.one_region_down_env CONFIG_FILE_PATH)).
Proof.
  split; [reflexivity |]. split; [reflexivity |].
  split; [eexists; reflexivity |].
  apply (setupCollectors_loop_started
           Scenario2.one_region_down_env CONFIG_FILE_PATH
           Scenario2.all_enabled_config vpc).
  - reflexivity.
  - reflexivity.
  - intros k' [<- | []] _ region [<- | []].
    eexists. reflexivity.
Defined.

(** ** [run] after [setupCollectors] *)

Section Run.

Variable env : Env.

(** The events of [setupCollectors] are logs, the read, sessions, and the
    construction and start of collectors. *)
Lemma setupCollectors_event_kinds (configFile : string) :
  Forall (fun e => match e with
                   | EvLog _ _ | EvReadFile _ | EvNewSession _
                   | EvNewExporter _ | EvGoCollectLoop _ => True
                   | _ => False
                   end)
         (trace (setupCollectors env configFile)).
Proof.
  destruct (ioutil_ReadFile env configFile) as [file | e] eqn:Hread.
  - assert (Hload := load_read_ok env configFile file Hread).
    apply (f_equal outcome) in Hload. cbn [outcome snd] in Hload.
    destruct (setupCollectors_events env configFile _ Hload) as [Ht _].
    eapply Forall_impl; [| exact Ht].
    intros ev Hev. destruct ev; cbn in *; first [exact I | destruct Hev].
  - rewrite (setupCollectors_read_err _ _ _ Hread). repeat constructor.
Qed.

(** [run] when [setupCollectors] returns collectors. *)
Lemma run_after_setup (flags : Flags) (cs : list Collector) :
  kingpin_Parse env = inr flags ->
  outcome (setupCollectors env (configFile env)) = Returned (Ok cs) ->
  run env =
  (EvLog LevelInfo ["msg"; "Starting" ++ namespace; "version"; version_Info env]
   :: EvLog LevelInfo ["msg"; "Build context"; version_BuildContext env]
   :: (trace (setupCollectors env (configFile env))
       ++ EvMustRegister (cs ++ [ExporterMetrics])
       :: match prometheus_MustRegister env (cs ++ [ExporterMetrics]) with
          | Some _ => []
          | None =>
              [EvHandle (metricsPath flags); EvHandleFunc "/"; EvSignalNotify;
               EvGoListenAndServe (listenAddress flags)]
              ++ match select_ready env with
                 | term_received =>
                     [EvLog LevelInfo
                        ["msg"; "Received SIGTERM, exiting gracefully..."]]
                 | _ => []
                 end
          end)%list,
   match prometheus_MustRegister env (cs ++ [ExporterMetrics]) with
   | Some v => Panicked v
   | None =>
       match select_ready env with
       | term_received => Returned 0
       | srvc_closed => Returned 1
       | none_ready => Blocked
       end
   end).
Proof.
  intros Hparse Hsetup. unfold run, Parse, MustRegister. rewrite Hparse.
  destruct (setupCollectors env (configFile env)) as [t o].
  cbn in Hsetup. subst o. cbn.
  destruct (prometheus_MustRegister env (cs ++ [ExporterMetrics])); cbn;
    [reflexivity |].
  destruct (select_ready env); reflexivity.
Qed.

End Run.

(** X9: when [setupCollectors] returns the collectors [cs], [run] registers
    collectors exactly once, and what it registers is [cs] followed by the
    exporter's own metrics, which are thus registered whatever kinds are
    enabled. *)
Theorem run_registers_once (env : Env) (flags : Flags) (cs : list Collector) :
  kingpin_Parse env = inr flags ->
  outcome (setupCollectors env (configFile env)) = Returned (Ok cs) ->
  filter is_register (trace (run env))
  = [EvMustRegister (cs ++ [ExporterMetrics])].
Proof.
  intros Hparse Hsetup. rewrite (run_after_setup env flags cs Hparse Hsetup).
  cbn [trace fst filter is_register].
  rewrite filter_app.
  rewrite (filter_none is_register (trace (setupCollectors env (configFile env)))).
  - cbn. destruct (prometheus_MustRegister env (cs ++ [ExporterMetrics]));
      [reflexivity |].
    destruct (select_ready env); reflexivity.
  - eapply Forall_impl; [| apply setupCollectors_event_kinds].
    intros e He. destruct e; first [reflexivity | destruct He].
Qed.

Lemma run_registers_once_witness :
  kingpin_Parse Scenario.broken_env = inr Scenario.default_flags /\
  outcome (setupCollectors Scenario.broken_env (configFile Scenario.broken_env))
    = Returned (Ok []) /\
  filter is_register (trace (run Scenario.broken_env))
    = [EvMustRegister [ExporterMetrics]].
Proof.
  split; [reflexivity |]. split; [reflexivity |].
  apply (run_registers_once Scenario.broken_env Scenario.default_flags []);
    reflexivity.
Defined.

(** X10: when [prometheus.MustRegister] panics, [run] panics with the same
    value, and neither registers an HTTP handler nor starts the listener. *)
Theorem run_register_panics
    (env : Env) (flags : Flags) (cs : list Collector) (v : error) :
  kingpin_Parse env = inr flags ->
  outcome (setupCollectors env (configFile env)) = Returned (Ok cs) ->
  prometheus_MustRegister env (cs ++ [ExporterMetrics]) = Some v ->
  outcome (run env) = Panicked v /\
  Forall (fun ev => serving ev = false) (trace (run env)).
Proof.
  intros Hparse Hsetup Hreg.
  rewrite (run_after_setup env flags cs Hparse Hsetup), Hreg.
  split; [reflexivity |].
  cbn [trace fst]. repeat (constructor; [reflexivity |]).
  apply Forall_app. split; [apply setupCollectors_not_serving |].
  repeat constructor.
Qed.

Lemma run_register_panics_witness :
  kingpin_Parse Scenario2.register_panics_env = inr Scenario.default_flags /\
  outcome (setupCollectors Scenario2.register_panics_env
             (configFile Scenario2.register_panics_env))
    = Returned (Ok Scenario2.all_enabled_collectors) /\
  outcome (run Scenario2.register_panics_env)
    = Panicked "duplicate metrics collector registration attempted" /\
  Forall (fun ev => serving ev = false) (trace (run Scenario2.register_panics_env)).
Proof.
  split; [reflexivity |]. split; [reflexivity |].
  apply (run_register_panics
           Scenario2.register_panics_env Scenario.default_flags
           Scenario2.all_enabled_collectors);
    reflexivity.
Defined.



(** ** The exit status *)





(** With [--help], the process ends in [kingpin.Parse] with status 0, before
    anything is logged or read; with no configuration file, it ends with
    status 1. *)
Example main_samples :
  main Scenario2.help_env = ([], Exited 0) /\
  outcome (main Scenario.no_file_env) = Exited 1 /\
  outcome (main Scenario2.all_enabled_env) = Exited 0.
Proof. repeat split; reflexivity. Qed.

(** ** More on defaulting *)

Lemma isNil_false_Some {A : Type} (p : option A) :
  negb (isNil p) = true -> exists x, p = Some x.
Proof. destruct p as [x |]; [now exists x | discriminate]. Qed.

(** X14: the configurations the defaulting step leaves as they are, are
    those in which no duration pointer is nil. *)
Theorem defaulting_fixed_point_iff (c : Config) :
  defaulting c = c <-> fully_set c = true.
Proof.
  split.
  - intros H. rewrite <- H, defaulting_closed. reflexivity.
  - intros H. unfold fully_set in H.
    repeat (apply andb_prop in H as [H ?]).
    repeat match goal with
           | Hn : negb (isNil _) = true |- _ =>
               apply isNil_false_Some in Hn as [? Hn]
           end.
    rewrite defaulting_closed.
    destruct c as [[[e1 i1 t1] r1] [[e2 i2 t2] o2 r2]
                   [[e3 i3 t3] o3 r3] [[e4 i4 t4] o4 r4]].
    cbn in *. subst. reflexivity.
Qed.

(** X15: the defaulting of a kind looks at that kind only: two
    configurations that agree on a kind's enabled flag, interval, cacheTTL
    and timeout agree on them after defaulting, whatever the other kinds
    have. *)
Theorem defaulting_per_kind (c c' : Config) (k : Kind) :
  baseOf k c = baseOf k c' ->
  timeoutOf k c = timeoutOf k c' ->
  baseOf k (defaulting c) = baseOf k (defaulting c') /\
  timeoutOf k (defaulting c) = timeoutOf k (defaulting c').
Proof.
  intros Hb Ht. rewrite !defaulting_closed.
  destruct k;
    cbn [baseOf timeoutOf Config_RdsConfig Config_VpcConfig
         Config_Route53Config Config_EC2Config RDS_Base VPC_Base R53_Base
         EC2_Base VPC_Timeout R53_Timeout EC2_Timeout] in *;
    rewrite Hb; split; try reflexivity;
    injection Ht as ->; reflexivity.
Qed.

Lemma defaulting_per_kind_witness :
  baseOf route53 Scenario.sample_parsed = baseOf route53 zeroConfig /\
  timeoutOf route53 Scenario.sample_parsed = timeoutOf route53 zeroConfig /\
  baseOf route53 (defaulting Scenario.sample_parsed)
    = baseOf route53 (defaulting zeroConfig) /\
  timeoutOf route53 (defaulting Scenario.sample_parsed)
    = timeoutOf route53 (defaulting zeroConfig).
Proof.
  split; [reflexivity |]. split; [reflexivity |].
  apply (defaulting_per_kind Scenario.sample_parsed zeroConfig route53);
    reflexivity.
Defined.

(** X16: whenever the file is read, no duration pointer of the
    configuration [loadExporterConfiguration] returns is nil: the timeouts
    of vpc, route53 and ec2 are set as the intervals and cacheTTLs are. *)
Theorem loadExporterConfiguration_fully_set
    (env : Env) (configFile : string) (file : list Byte.byte) :
  ioutil_ReadFile env configFile = Ok file ->
  exists config,
    outcome (loadExporterConfiguration env configFile) = Returned (Ok config) /\
    fully_set config = true /\
    forall k t, timeoutOf k config = Some t -> isNil t = false.
Proof.
  intros Hread.
  exists (defaulting (fst (yaml_Unmarshal env file zeroConfig))).
  rewrite (load_read_ok _ _ _ Hread). split; [reflexivity |].
  rewrite defaulting_closed. split; [reflexivity |].
  intros k t. destruct k; cbn; intros [= <-]; reflexivity.
Qed.

Lemma loadExporterConfiguration_fully_set_witness :
  ioutil_ReadFile Scenario.sample_env CONFIG_FILE_PATH
    = Ok (list_byte_of_string Scenario.sample_yaml) /\
  exists config,
    outcome (loadExporterConfiguration Scenario.sample_env CONFIG_FILE_PATH)
      = Returned (Ok config) /\
    fully_set config = true /\
    forall k t, timeoutOf k config = Some t -> isNil t = false.
Proof.
  split; [reflexivity |].
  apply (loadExporterConfiguration_fully_set
           Scenario.sample_env CONFIG_FILE_PATH
           (list_byte_of_string Scenario.sample_yaml)).
  reflexivity.
Defined.
